(** * CampusTrace: the item and claim workflow of the front end

    A shallow embedding of the workflow code of [src/App.tsx] (the React
    state of [App] and its handlers), of the data model it imports from
    [./types], of [src/constants.ts] and of the two Text Assist calls of
    [src/services/geminiService.ts].

    React state is a record that every handler maps to the next record;
    what a handler reads from the outside world ([Math.random], [Date.now],
    [new Date()], the reply of the AI service) is an argument. *)

From Stdlib Require Import List String Ascii Bool Arith Lia.
Import ListNotations.
Local Open Scope string_scope.
Local Open Scope bool_scope.

Set Implicit Arguments.

(** ** Data model ([./types]) *)

Inductive ItemType := LOST | FOUND.

Inductive ItemStatus := PENDING_APPROVAL | UNCLAIMED | CLAIM_REQUESTED | RETURNED.

Inductive Category := ELECTRONICS | BOOKS | CLOTHING | KEYS | CARDS | OTHER.

Inductive Role := STUDENT | ADMIN.

Inductive ClaimStatus := PENDING | APPROVED | REJECTED.

(** The string value of each member of the [Category] enum. *)
Definition Category_value (c : Category) : string :=
  match c with
  | ELECTRONICS => "Electronics"
  | BOOKS => "Books & Stationery"
  | CLOTHING => "Clothing & Accessories"
  | KEYS => "Keys"
  | CARDS => "Cards & IDs"
  | OTHER => "Other"
  end.

(** [Object.values(Category)] *)
Definition Category_values : list Category :=
  [ELECTRONICS; BOOKS; CLOTHING; KEYS; CARDS; OTHER].

Definition ItemStatus_eqb (a b : ItemStatus) : bool :=
  match a, b with
  | PENDING_APPROVAL, PENDING_APPROVAL
  | UNCLAIMED, UNCLAIMED
  | CLAIM_REQUESTED, CLAIM_REQUESTED
  | RETURNED, RETURNED => true
  | _, _ => false
  end.

Definition Category_eqb (a b : Category) : bool :=
  match a, b with
  | ELECTRONICS, ELECTRONICS | BOOKS, BOOKS | CLOTHING, CLOTHING
  | KEYS, KEYS | CARDS, CARDS | OTHER, OTHER => true
  | _, _ => false
  end.

Definition Role_eqb (a b : Role) : bool :=
  match a, b with
  | STUDENT, STUDENT | ADMIN, ADMIN => true
  | _, _ => false
  end.

Module User.
Record t := mk {
  id : string;
  email : string;
  role : Role
}.
End User.

Module ClaimRequest.
Record t := mk {
  id : string;
  userId : string;
  userEmail : string;
  message : string;
  contact : string;
  status : ClaimStatus
}.
End ClaimRequest.

Module Item.
Record t := mk {
  id : string;
  title : string;
  type : ItemType;
  category : Category;
  location : string;
  date : string;
  description : string;
  imageUrl : option string;
  status : ItemStatus;
  userId : string;
  claims : list ClaimRequest.t;
  createdAt : string
}.

(** [{ ...it, status: s }] *)
Definition with_status (s : ItemStatus) (it : t) : t :=
  mk (id it) (title it) (type it) (category it) (location it) (date it)
     (description it) (imageUrl it) s (userId it) (claims it) (createdAt it).

(** [{ ...it, status: s, claims: cs }] *)
Definition with_status_claims (s : ItemStatus) (cs : list ClaimRequest.t) (it : t) : t :=
  mk (id it) (title it) (type it) (category it) (location it) (date it)
     (description it) (imageUrl it) s (userId it) cs (createdAt it).
End Item.

(** ** Text Assist: what a call gives ([src/services/geminiService.ts]) *)

(** What [await ai.models.generateContent(...)] does: it throws, or it
    gives a response whose [text] is a string or [undefined]. *)
Inductive GenerateContent :=
| Throws (error : string)
| Response (text : option string).

(** The settled promise an [async] function returns. *)
Inductive Promise (A : Type) :=
| Fulfilled (v : A)
| Rejected (reason : string).
Arguments Fulfilled {A} v.
Arguments Rejected {A} reason.

(** ** Strings

    A string is the sequence of the bytes of its UTF-8 form.  The two
    string functions of the platform the code calls,
    [String.prototype.toLowerCase] and [String.prototype.trim], follow the
    Unicode tables and are not part of the repository: the development
    takes them as the parameters [toLowerCase] and [trim] below, and what
    it proves holds for every such function.

    [asciiToLowerCase] and [asciiTrim] are what the two functions do to a
    string of ASCII characters; the examples run with them. *)

Definition lower_ascii (c : ascii) : ascii :=
  let n := nat_of_ascii c in
  if Nat.leb 65 n && Nat.leb n 90 then ascii_of_nat (n + 32) else c.

Fixpoint asciiToLowerCase (s : string) : string :=
  match s with
  | EmptyString => EmptyString
  | String c s' => String (lower_ascii c) (asciiToLowerCase s')
  end.

(** [asciiTrim] removes, at both ends, the white space of
    [String.prototype.trim] that ASCII has: tab, line feed, vertical tab,
    form feed, carriage return and space. *)
Definition isWhiteSpace (c : ascii) : bool :=
  let n := nat_of_ascii c in
  (Nat.leb 9 n && Nat.leb n 13) || Nat.eqb n 32.

Fixpoint asciiTrimStart (s : string) : string :=
  match s with
  | EmptyString => EmptyString
  | String c rest => if isWhiteSpace c then asciiTrimStart rest else s
  end.

Fixpoint asciiTrimEnd (s : string) : string :=
  match s with
  | EmptyString => EmptyString
  | String c rest =>
      match asciiTrimEnd rest with
      | EmptyString => if isWhiteSpace c then EmptyString else String c EmptyString
      | r => String c r
      end
  end.

Definition asciiTrim (s : string) : string := asciiTrimEnd (asciiTrimStart s).

Section Page.

(** [String.prototype.toLowerCase]; of it the development uses only that
    the lower case of the empty string is the empty string. *)
Variable toLowerCase : string -> string.
Hypothesis toLowerCase_empty : toLowerCase "" = "".

(** [String.prototype.trim] *)
Variable trim : string -> string.

Set Default Proof Using "Type".

(** [s.includes(q)]: [q] occurs in [s] as a contiguous substring. *)
Fixpoint includes (s q : string) : bool :=
  String.prefix q s ||
  match s with
  | EmptyString => false
  | String _ s' => includes s' q
  end.

(** ** The listing ([filteredItems], App.tsx) *)

(** [it.userId === currentUser?.id] *)
Definition isOwner (currentUser : option User.t) (it : Item.t) : bool :=
  match currentUser with
  | Some u => String.eqb (Item.userId it) (User.id u)
  | None => false
  end.

(** [currentUser?.role === 'ADMIN'] *)
Definition isAdmin (currentUser : option User.t) : bool :=
  match currentUser with
  | Some u => Role_eqb (User.role u) ADMIN
  | None => false
  end.

(** [activeCategory]: a [Category] or the sentinel ['ALL'] ([None]). *)
Definition matchCategory (activeCategory : option Category) (it : Item.t) : bool :=
  match activeCategory with
  | None => true
  | Some c => Category_eqb (Item.category it) c
  end.

Definition matchSearch (searchQuery : string) (it : Item.t) : bool :=
  includes (toLowerCase (Item.title it)) (toLowerCase searchQuery) ||
  includes (toLowerCase (Item.description it)) (toLowerCase searchQuery).

Definition isVisible (currentUser : option User.t) (it : Item.t) : bool :=
  negb (ItemStatus_eqb (Item.status it) PENDING_APPROVAL) ||
  isOwner currentUser it || isAdmin currentUser.

Definition filteredItems (items : list Item.t) (searchQuery : string)
    (activeCategory : option Category) (currentUser : option User.t) : list Item.t :=
  filter (fun it =>
            matchSearch searchQuery it && matchCategory activeCategory it &&
            isVisible currentUser it)
         items.


(** [myItems] and [myClaims] *)
Definition myItems (items : list Item.t) (currentUser : option User.t) : list Item.t :=
  filter (isOwner currentUser) items.

(** [c.userId === currentUser?.id] *)
Definition isClaimant (currentUser : option User.t) (c : ClaimRequest.t) : bool :=
  match currentUser with
  | Some u => String.eqb (ClaimRequest.userId c) (User.id u)
  | None => false
  end.

Definition myClaims (items : list Item.t) (currentUser : option User.t) : list Item.t :=
  filter (fun it => existsb (isClaimant currentUser) (Item.claims it)) items.

(** ** React state of [App] *)

Inductive Tab := HOME | POST | MY_TRACE | ADMIN_TAB.

Inductive NotificationType := SUCCESS | INFO | ERROR.

Record Notification := mkNotification {
  n_id : string;
  n_text : string;
  n_type : NotificationType
}.

(** The draft of the report form ([newItem], the seven fields every
    [setNewItem] keeps). *)
Record NewItem := mkNewItem {
  d_title : string;
  d_type : ItemType;
  d_category : Category;
  d_location : string;
  d_date : string;
  d_description : string;
  d_imageUrl : string
}.

Record ClaimForm := mkClaimForm {
  f_message : string;
  f_contact : string
}.

Record AppState := mkApp {
  items : list Item.t;
  currentUser : option User.t;
  activeTab : Tab;
  selectedItem : option Item.t;
  searchQuery : string;
  notifications : list Notification;
  activeCategory : option Category;
  newItem : NewItem;
  claimForm : ClaimForm;
  loginEmail : string
}.

Definition setItems (v : list Item.t) (st : AppState) : AppState :=
  mkApp v (currentUser st) (activeTab st) (selectedItem st) (searchQuery st)
        (notifications st) (activeCategory st) (newItem st) (claimForm st) (loginEmail st).

Definition setCurrentUser (v : option User.t) (st : AppState) : AppState :=
  mkApp (items st) v (activeTab st) (selectedItem st) (searchQuery st)
        (notifications st) (activeCategory st) (newItem st) (claimForm st) (loginEmail st).

Definition setActiveTab (v : Tab) (st : AppState) : AppState :=
  mkApp (items st) (currentUser st) v (selectedItem st) (searchQuery st)
        (notifications st) (activeCategory st) (newItem st) (claimForm st) (loginEmail st).

Definition setSelectedItem (v : option Item.t) (st : AppState) : AppState :=
  mkApp (items st) (currentUser st) (activeTab st) v (searchQuery st)
        (notifications st) (activeCategory st) (newItem st) (claimForm st) (loginEmail st).

Definition setSearchQuery (v : string) (st : AppState) : AppState :=
  mkApp (items st) (currentUser st) (activeTab st) (selectedItem st) v
        (notifications st) (activeCategory st) (newItem st) (claimForm st) (loginEmail st).

Definition setNotifications (v : list Notification) (st : AppState) : AppState :=
  mkApp (items st) (currentUser st) (activeTab st) (selectedItem st) (searchQuery st)
        v (activeCategory st) (newItem st) (claimForm st) (loginEmail st).

Definition setActiveCategory (v : option Category) (st : AppState) : AppState :=
  mkApp (items st) (currentUser st) (activeTab st) (selectedItem st) (searchQuery st)
        (notifications st) v (newItem st) (claimForm st) (loginEmail st).

Definition setNewItem (v : NewItem) (st : AppState) : AppState :=
  mkApp (items st) (currentUser st) (activeTab st) (selectedItem st) (searchQuery st)
        (notifications st) (activeCategory st) v (claimForm st) (loginEmail st).

Definition setClaimForm (v : ClaimForm) (st : AppState) : AppState :=
  mkApp (items st) (currentUser st) (activeTab st) (selectedItem st) (searchQuery st)
        (notifications st) (activeCategory st) (newItem st) v (loginEmail st).

Definition setLoginEmail (v : string) (st : AppState) : AppState :=
  mkApp (items st) (currentUser st) (activeTab st) (selectedItem st) (searchQuery st)
        (notifications st) (activeCategory st) (newItem st) (claimForm st) v.

(** ** Handlers *)

(** [addNotification(text, type)]; [nid] is the id drawn from
    [Math.random].  The timer that drops the notification four seconds
    later is the event [ExpireNotification] below. *)
Definition addNotification (nid text : string) (type : NotificationType)
    (st : AppState) : AppState :=
  setNotifications (mkNotification nid text type :: notifications st) st.

(** [new Date().toISOString().split('T')[0]]: the part of the ISO time
    stamp before its first [T]. *)
Fixpoint isoDate (now : string) : string :=
  match now with
  | EmptyString => EmptyString
  | String c rest => if Ascii.eqb c "T"%char then EmptyString else String c (isoDate rest)
  end.

Definition blankNewItem (now : string) : NewItem :=
  mkNewItem "" LOST OTHER "" (isoDate now) "" "".

(** The item [handlePost] builds: the spread of the draft, then the five
    fields written after it. *)
Definition postedItem (d : NewItem) (rid now : string) (u : User.t) : Item.t :=
  Item.mk rid (d_title d) (d_type d) (d_category d) (d_location d) (d_date d)
          (d_description d) (Some (d_imageUrl d))
          PENDING_APPROVAL (User.id u) [] now.

(** [handlePost]; [rid] and [nid] are the two [Math.random] ids, [now] is
    [new Date().toISOString()]. *)
Definition handlePost (rid now nid : string) (st : AppState) : AppState :=
  match currentUser st with
  | None => st
  | Some u =>
      let item := postedItem (newItem st) rid now u in
      setActiveTab MY_TRACE
        (addNotification nid "Report submitted! Awaiting approval." INFO
           (setNewItem (blankNewItem now)
              (setItems (item :: items st) st)))
  end.

(** The claim [handleClaimSubmit] builds. *)
Definition newClaim (rid : string) (u : User.t) (f : ClaimForm) : ClaimRequest.t :=
  ClaimRequest.mk rid (User.id u) (User.email u) (f_message f) (f_contact f) PENDING.

(** [handleClaimSubmit]; [rid] and [nid] are the two [Math.random] ids. *)
Definition handleClaimSubmit (rid nid : string) (st : AppState) : AppState :=
  match selectedItem st, currentUser st with
  | Some sel, Some u =>
      let claim := newClaim rid u (claimForm st) in
      let updatedItems :=
        map (fun it =>
               if String.eqb (Item.id it) (Item.id sel)
               then Item.with_status_claims CLAIM_REQUESTED (Item.claims it ++ [claim]) it
               else it)
            (items st) in
      addNotification nid "Claim submitted! The owner/admin will review it." SUCCESS
        (setClaimForm (mkClaimForm "" "")
           (setSelectedItem None
              (setItems updatedItems st)))
  | _, _ => st
  end.

Inductive AdminAction := APPROVE | DELETE | MARK_RETURNED.

(** The [else] branch of [handleAdminAction]: every item whose id is
    [id] gets the status [statusMap[action]], and the notice
    [`Item ${action.toLowerCase()}d!`] is posted. *)
Definition updateStatus (id : string) (s : ItemStatus) (nid notice : string)
    (st : AppState) : AppState :=
  addNotification nid notice SUCCESS
    (setItems
       (map (fun it => if String.eqb (Item.id it) id then Item.with_status s it else it)
            (items st))
       st).

(** [handleAdminAction(id, action)]; [statusMap] sends ['APPROVE'] to
    [UNCLAIMED] and ['MARK_RETURNED'] to [RETURNED]. *)
Definition handleAdminAction (id : string) (action : AdminAction) (nid : string)
    (st : AppState) : AppState :=
  match action with
  | DELETE =>
      addNotification nid "Report deleted." INFO
        (setItems (filter (fun it => negb (String.eqb (Item.id it) id)) (items st)) st)
  | APPROVE => updateStatus id UNCLAIMED nid "Item approved!" st
  | MARK_RETURNED => updateStatus id RETURNED nid "Item mark_returnedd!" st
  end.

(** ** What the rendered page offers

    Each event is one thing a user can do on the page [App] renders; the
    conditions under which it is offered are the conditions of the JSX.
    [dispatch] returns [None] when the page does not offer the event.
    The detail sheet is an overlay: the page under it is kept reachable
    here, which only adds behaviours. *)

(** The claim form of the detail sheet is rendered under
    [selectedItem.userId !== currentUser.id &&
     selectedItem.status === ItemStatus.UNCLAIMED]. *)
Definition claimFormVisible (sel : Item.t) (u : User.t) : bool :=
  negb (String.eqb (Item.userId sel) (User.id u)) &&
  ItemStatus_eqb (Item.status sel) UNCLAIMED.

(** The moderator tab lists
    [items.filter(i => i.status === ItemStatus.PENDING_APPROVAL)], each
    with its Approve and Reject buttons. *)
Definition pendingReports (items : list Item.t) : list Item.t :=
  filter (fun i => ItemStatus_eqb (Item.status i) PENDING_APPROVAL) items.

Definition nonEmpty (s : string) : bool :=
  match s with
  | EmptyString => false
  | String _ _ => true
  end.

Definition Tab_eqb (a b : Tab) : bool :=
  match a, b with
  | HOME, HOME | POST, POST | MY_TRACE, MY_TRACE | ADMIN_TAB, ADMIN_TAB => true
  | _, _ => false
  end.

(** [EditNewItem] stands for every edit of the report form (typing, the
    camera, the two Text Assist buttons); the cards of a rendered list are
    clicked by their position; [stamp] is [Date.now()] in decimal. *)
Inductive Event :=
| TypeLoginEmail (email : string)
| EnterCampus (stamp : string)
| AdminPortal (stamp : string)
| Logout
| GoToTab (t : Tab)
| TypeSearch (q : string)
| PickCategory (c : option Category)
| OpenFeedItem (n : nat)
| OpenMyReport (n : nat)
| OpenMyClaim (n : nat)
| CloseItem
| EditNewItem (d : NewItem)
| SubmitPost (rid now nid : string)
| EditClaimForm (f : ClaimForm)
| SubmitClaim (rid nid : string)
| ClickApprove (n : nat) (nid : string)
| ClickReject (n : nat) (nid : string)
| ClickMarkReturned (nid : string)
| ClickDelete (nid : string)
| ExpireNotification (nid : string)
| Reload (now : string).

(** The state [App] starts from when the page is loaded again: the items
    and the user come back from local storage, everything else is reset. *)
Definition reloaded (now : string) (st : AppState) : AppState :=
  mkApp (items st) (currentUser st) HOME None "" [] None
        (blankNewItem now) (mkClaimForm "" "") "".

(** Opening the [n]th card of a rendered list. *)
Definition openNth (l : list Item.t) (n : nat) (st : AppState) : option AppState :=
  match nth_error l n with
  | Some it => Some (setSelectedItem (Some it) st)
  | None => None
  end.

(** [loginEmail && setCurrentUser({ id: prefix + Date.now(), ... })] *)
Definition login (prefix stamp : string) (r : Role) (st : AppState) : AppState :=
  if nonEmpty (loginEmail st)
  then setCurrentUser (Some (User.mk (prefix ++ stamp) (loginEmail st) r)) st
  else st.

Definition dispatch (st : AppState) (ev : Event) : option AppState :=
  match ev with
  | ExpireNotification nid =>
      Some (setNotifications
              (filter (fun n => negb (String.eqb (n_id n) nid)) (notifications st)) st)
  | Reload now => Some (reloaded now st)
  | _ =>
    match currentUser st with
    | None =>
        (* the login screen *)
        match ev with
        | TypeLoginEmail email => Some (setLoginEmail email st)
        | EnterCampus stamp => Some (login "u-" stamp STUDENT st)
        | AdminPortal stamp => Some (login "a-" stamp ADMIN st)
        | _ => None
        end
    | Some u =>
        match ev with
        | Logout => Some (setCurrentUser None st)
        | GoToTab t =>
            if negb (Tab_eqb t ADMIN_TAB) || Role_eqb (User.role u) ADMIN
            then Some (setActiveTab t st) else None
        | TypeSearch q =>
            if Tab_eqb (activeTab st) HOME then Some (setSearchQuery q st) else None
        | PickCategory c =>
            if Tab_eqb (activeTab st) HOME then Some (setActiveCategory c st) else None
        | OpenFeedItem n =>
            if Tab_eqb (activeTab st) HOME
            then openNth (filteredItems (items st) (searchQuery st) (activeCategory st)
                                        (currentUser st)) n st
            else None
        | OpenMyReport n =>
            if Tab_eqb (activeTab st) MY_TRACE
            then openNth (myItems (items st) (currentUser st)) n st else None
        | OpenMyClaim n =>
            if Tab_eqb (activeTab st) MY_TRACE
            then openNth (myClaims (items st) (currentUser st)) n st else None
        | CloseItem =>
            match selectedItem st with
            | Some _ => Some (setSelectedItem None st)
            | None => None
            end
        | EditNewItem d =>
            if Tab_eqb (activeTab st) POST then Some (setNewItem d st) else None
        | SubmitPost rid now nid =>
            (* the four [required] fields of the report form *)
            if Tab_eqb (activeTab st) POST &&
               nonEmpty (d_title (newItem st)) && nonEmpty (d_date (newItem st)) &&
               nonEmpty (d_location (newItem st)) && nonEmpty (d_description (newItem st))
            then Some (handlePost rid now nid st) else None
        | EditClaimForm f =>
            match selectedItem st with
            | Some sel => if claimFormVisible sel u then Some (setClaimForm f st) else None
            | None => None
            end
        | SubmitClaim rid nid =>
            (* both fields of the claim form are [required] *)
            match selectedItem st with
            | Some sel =>
                if claimFormVisible sel u &&
                   nonEmpty (f_message (claimForm st)) && nonEmpty (f_contact (claimForm st))
                then Some (handleClaimSubmit rid nid st) else None
            | None => None
            end
        | ClickApprove n nid =>
            if Tab_eqb (activeTab st) ADMIN_TAB
            then match nth_error (pendingReports (items st)) n with
                 | Some it => Some (handleAdminAction (Item.id it) APPROVE nid st)
                 | None => None
                 end
            else None
        | ClickReject n nid =>
            if Tab_eqb (activeTab st) ADMIN_TAB
            then match nth_error (pendingReports (items st)) n with
                 | Some it => Some (handleAdminAction (Item.id it) DELETE nid st)
                 | None => None
                 end
            else None
        | ClickMarkReturned nid =>
            match selectedItem st with
            | Some sel =>
                if Role_eqb (User.role u) ADMIN
                then Some (handleAdminAction (Item.id sel) MARK_RETURNED nid st) else None
            | None => None
            end
        | ClickDelete nid =>
            match selectedItem st with
            | Some sel =>
                if Role_eqb (User.role u) ADMIN
                then Some (handleAdminAction (Item.id sel) DELETE nid st) else None
            | None => None
            end
        | _ => None
        end
    end
  end.

(** ** The first load ([src/constants.ts]) *)

(** [INITIAL_ITEMS]; [now] is the [new Date().toISOString()] of the load. *)
Definition INITIAL_ITEMS (now : string) : list Item.t :=
  [ Item.mk "1" "MacBook Air M2 Silver" LOST ELECTRONICS "Engineering Hall Lab 3"
      "2024-05-15"
      "Silver MacBook with a stickers of a rocket ship on the lid. Left it on the desk near the window."
      None UNCLAIMED "user-1" [] now;
    Item.mk "2" "Blue Water Bottle" FOUND OTHER "Campus Gym Cardio Zone"
      "2024-05-18"
      "Hydro Flask style, blue, has some scratches at the bottom."
      None UNCLAIMED "user-2" [] now;
    Item.mk "3" "Dorm Keys - Green Lanyard" FOUND KEYS "Main Library Level 2"
      "2024-05-19"
      "Found a set of 3 keys on a green university lanyard near the study pods."
      None PENDING_APPROVAL "user-3" [] now ].

(** The state of [App] on a first load, with nothing in local storage. *)
Definition initialState (now : string) : AppState :=
  mkApp (INITIAL_ITEMS now) None HOME None "" [] None
        (blankNewItem now) (mkClaimForm "" "") "".

(** ** Runs of the page

    The ids [handlePost] draws from [Math.random] are taken to be new: an
    id differs from the ids of the items of the list and of the item of
    the open sheet. *)
Definition freshIds (st : AppState) (ev : Event) : bool :=
  match ev with
  | SubmitPost rid _ _ =>
      forallb (fun it => negb (String.eqb (Item.id it) rid)) (items st) &&
      match selectedItem st with
      | Some sel => negb (String.eqb (Item.id sel) rid)
      | None => true
      end
  | _ => true
  end.

Inductive reachable (now : string) : AppState -> Prop :=
| reach_init : reachable now (initialState now)
| reach_step st ev st' :
    reachable now st ->
    freshIds st ev = true ->
    dispatch st ev = Some st' ->
    reachable now st'.

(** Running a list of events from a state; [None] when one of them is not
    offered. *)
Fixpoint run (st : AppState) (evs : list Event) : option AppState :=
  match evs with
  | [] => Some st
  | ev :: evs' =>
      match dispatch st ev with
      | Some st' => run st' evs'
      | None => None
      end
  end.

(** The ids drawn along a run are new. *)
Fixpoint freshRun (st : AppState) (evs : list Event) : bool :=
  match evs with
  | [] => true
  | ev :: evs' =>
      freshIds st ev &&
      match dispatch st ev with
      | Some st' => freshRun st' evs'
      | None => false
      end
  end.

(** Looking an item up by its id. *)
Definition findItem (id : string) (l : list Item.t) : option Item.t :=
  find (fun it => String.eqb (Item.id it) id) l.

(** Every claim of the state, with the id of the item that holds it. *)
Definition allClaims (l : list Item.t) : list (string * ClaimRequest.t) :=
  flat_map (fun it => map (fun c => (Item.id it, c)) (Item.claims it)) l.

(** ** Text Assist ([src/services/geminiService.ts]) *)

(** [response.text?.trim() || fallback]: the trimmed text when there is
    one and it is not empty, the fallback otherwise. *)
Definition textOr (text : option string) (fallback : string) : string :=
  match text with
  | Some s => if nonEmpty (trim s) then trim s else fallback
  | None => fallback
  end.

Definition quote : string := String (ascii_of_nat 34) EmptyString.

Definition enhancePrompt (text : string) : string :=
  "Enhance this description for a campus lost and found item to be more clear and descriptive, while keeping it concise. Return ONLY the enhanced description. Original: "
  ++ quote ++ text ++ quote.

Definition categoryPrompt (title description : string) : string :=
  "Based on this item title: " ++ quote ++ title ++ quote ++ " and description: "
  ++ quote ++ description ++ quote ++
  ", categorize it into one of these: Electronics, Books & Stationery, Clothing & Accessories, Keys, Cards & IDs, Other. Return ONLY the category name.".

(** The two calls, over the service [ai]: what it does with a prompt. *)
Definition enhanceDescription (ai : string -> GenerateContent) (text : string)
    : Promise string :=
  match ai (enhancePrompt text) with
  | Response t => Fulfilled (textOr t text)
  | Throws _ => Fulfilled text
  end.

Definition suggestCategory (ai : string -> GenerateContent) (title description : string)
    : Promise string :=
  match ai (categoryPrompt title description) with
  | Response t => Fulfilled (textOr t "Other")
  | Throws _ => Fulfilled "Other"
  end.

(** The call failed: it threw, or its text is absent or empty once
    trimmed. *)
Definition callFailed (o : GenerateContent) : Prop :=
  match o with
  | Throws _ => True
  | Response None => True
  | Response (Some s) => trim s = ""
  end.

(** The closed enumeration, as the strings of [Category]. *)
Definition isCategoryName (s : string) : bool :=
  existsb (fun c => String.eqb s (Category_value c)) Category_values.

(** [ClaimSchema.message.minlength] of the schema design (part_003):
    [minlength: 20 // Ensure they provide actual proof]. *)
Definition ClaimSchema_message_minlength : nat := 20.

(** ** Frames

    [new] is [old] up to its status. *)
Definition sameButStatus (old new : Item.t) : Prop :=
  Item.id new = Item.id old /\
  Item.title new = Item.title old /\
  Item.type new = Item.type old /\
  Item.category new = Item.category old /\
  Item.location new = Item.location old /\
  Item.date new = Item.date old /\
  Item.description new = Item.description old /\
  Item.imageUrl new = Item.imageUrl old /\
  Item.userId new = Item.userId old /\
  Item.claims new = Item.claims old /\
  Item.createdAt new = Item.createdAt old.

(** [it.id !== id] *)
Definition otherId (id : string) (it : Item.t) : bool :=
  negb (String.eqb (Item.id it) id).

(** ** Invariants of the runs *)

(** No item holds a claim filed by its own owner. *)
Definition noSelfClaim (l : list Item.t) : Prop :=
  forall it c, In it l -> In c (Item.claims it) ->
               ClaimRequest.userId c <> Item.userId it.

(** The items of the list, and the item the open sheet holds. *)
Definition shown (l : list Item.t) (sel : option Item.t) : list Item.t :=
  match sel with
  | Some s => s :: l
  | None => l
  end.

(** Items that share an id share their owner; the item of the open sheet
    counts, as it may be older than the list. *)
Definition ownersAgree (l : list Item.t) (sel : option Item.t) : Prop :=
  forall a b, In a (shown l sel) -> In b (shown l sel) ->
              Item.id a = Item.id b -> Item.userId a = Item.userId b.

Definition invariant (st : AppState) : Prop :=
  ownersAgree (items st) (selectedItem st) /\ noSelfClaim (items st).

(** ** Sample data for the examples *)

Definition moderator : User.t := User.mk "a-1716200000000" "dean@uni.edu" ADMIN.

Definition dormKeys : Item.t :=
  Item.mk "3" "Dorm Keys - Green Lanyard" FOUND KEYS "Main Library Level 2"
    "2024-05-19"
    "Found a set of 3 keys on a green university lanyard near the study pods."
    None PENDING_APPROVAL "user-3" [] "2024-05-20T10:00:00.000Z".

Definition studentA : User.t := User.mk "u-1715765000000" "a@uni.edu" STUDENT.

Definition studentB : User.t := User.mk "u-1715766000000" "b@uni.edu" STUDENT.

(** Student A, on the report form, with the draft of the MacBook. *)
Definition studentADraft : AppState :=
  mkApp [] (Some studentA) POST None "" [] None
        (mkNewItem "MacBook Air" LOST ELECTRONICS "Lab 3" "2024-05-15"
                   "silver, rocket sticker" "")
        (mkClaimForm "" "") "".

(** A Text Assist service that times out on every prompt. *)
Definition timedOut : string -> GenerateContent :=
  fun _ => Throws "deadline exceeded".

(** A Text Assist service that answers with a category outside the list. *)
Definition offList : string -> GenerateContent :=
  fun _ => Response (Some " Jewelry ").

Definition loadTime : string := "2024-05-20T10:00:00.000Z".

Definition macBook : Item.t :=
  Item.mk "1" "MacBook Air M2 Silver" LOST ELECTRONICS "Engineering Hall Lab 3"
    "2024-05-15"
    "Silver MacBook with a stickers of a rocket ship on the lid. Left it on the desk near the window."
    None UNCLAIMED "user-1" [] loadTime.

(** Student B logs in, opens the MacBook from the feed and fills the claim
    form. *)
Definition claimRun : list Event :=
  [ TypeLoginEmail "b@uni.edu";
    EnterCampus "1715766000000";
    OpenFeedItem 0;
    EditClaimForm (mkClaimForm "it has a rocket sticker on the lid and a dent on the corner"
                               "b@uni.edu") ].

(** The state [claimRun] ends in. *)
Definition studentBClaiming : AppState :=
  mkApp (INITIAL_ITEMS loadTime) (Some studentB) HOME (Some macBook) "" [] None
        (blankNewItem loadTime)
        (mkClaimForm "it has a rocket sticker on the lid and a dent on the corner"
                     "b@uni.edu")
        "b@uni.edu".

(** The sheet of the MacBook is open while the list holds the MacBook as
    RETURNED. *)
Definition returnedMacBookOpen : AppState :=
  mkApp [Item.with_status RETURNED macBook] (Some studentB) HOME (Some macBook) "" [] None
        (blankNewItem loadTime) (mkClaimForm "mine" "b@uni.edu") "".

(** A moderator opens the MacBook from the feed, marks it as resolved and
    then fills the claim form the sheet still shows. *)
Definition staleSheetRun : list Event :=
  [ TypeLoginEmail "dean@uni.edu";
    AdminPortal "1716200000000";
    OpenFeedItem 0;
    ClickMarkReturned "n1";
    EditClaimForm (mkClaimForm "it has a rocket sticker on the lid" "dean@uni.edu") ].

(** A student opens the MacBook from the feed and claims it in one word. *)
Definition shortClaimRun : list Event :=
  [ TypeLoginEmail "b@uni.edu";
    EnterCampus "1715766000000";
    OpenFeedItem 0;
    EditClaimForm (mkClaimForm "mine" "b@uni.edu");
    SubmitClaim "c1" "n1" ].

(** The scenario of the specification: student A reports a MacBook, a
    moderator approves it, student B claims it, the moderator marks it as
    returned.  The tab is kept across logins, so B first goes back to the
    feed. *)
Definition reportRun : list Event :=
  [ TypeLoginEmail "a@uni.edu";
    EnterCampus "1715765000000";
    GoToTab POST;
    EditNewItem (mkNewItem "MacBook Air" LOST ELECTRONICS "Lab 3" "2024-05-15"
                           "silver, rocket sticker" "");
    SubmitPost "k3x9q2m1a" "2024-05-15T09:30:00.000Z" "n1";
    Logout ].

Definition approveRun : list Event :=
  [ TypeLoginEmail "dean@uni.edu";
    AdminPortal "1716200000000";
    GoToTab ADMIN_TAB;
    ClickApprove 0 "n2";
    Logout ].

Definition claimAndReturnRun : list Event :=
  [ TypeLoginEmail "b@uni.edu";
    EnterCampus "1715766000000";
    GoToTab HOME;
    OpenFeedItem 0;
    EditClaimForm (mkClaimForm "it has a rocket sticker on the lid and a dent on the corner"
                               "b@uni.edu");
    SubmitClaim "c1" "n3";
    Logout;
    TypeLoginEmail "dean@uni.edu";
    AdminPortal "1716300000000";
    OpenFeedItem 0;
    ClickMarkReturned "n4" ].

(** The status, the owner and the claimants of the item with the id,
    after a run from the first load. *)
Definition outcome (evs : list Event) (id : string)
    : option (ItemStatus * string * list (string * ClaimStatus)) :=
  match run (initialState loadTime) evs with
  | Some st =>
      match findItem id (items st) with
      | Some it =>
          Some (Item.status it, Item.userId it,
                map (fun c => (ClaimRequest.userId c, ClaimRequest.status c))
                    (Item.claims it))
      | None => None
      end
  | None => None
  end.

(** The finder of the dorm keys, logged in. *)
Definition finder : User.t := User.mk "user-3" "c@uni.edu" STUDENT.

(** ** More of the page *)

(** The label of a card of "Active Claims":
    [it.claims.find(c => c.userId === currentUser.id)?.status]. *)
Definition myClaimStatus (u : User.t) (it : Item.t) : option ClaimStatus :=
  option_map ClaimRequest.status (find (isClaimant (Some u)) (Item.claims it)).

(** [{ ...prev, description: enhanced }] *)
Definition withDescription (enhanced : string) (prev : NewItem) : NewItem :=
  mkNewItem (d_title prev) (d_type prev) (d_category prev) (d_location prev)
            (d_date prev) enhanced (d_imageUrl prev).

(** [handleAiEnhance].  [clicked] is the state when the button is
    pressed: the description sent to the service is read there.  [st] is
    the state when the promise settles, on which the two functional
    updates ([setNewItem(prev => ...)] and the [setNotifications] of
    [addNotification]) act.  The flag [isAiLoading], raised during the
    call and lowered in [finally], is not a field of [AppState]. *)
Definition handleAiEnhance (ai : string -> GenerateContent) (nid : string)
    (clicked st : AppState) : AppState :=
  if nonEmpty (d_description (newItem clicked))
  then
    match enhanceDescription ai (d_description (newItem clicked)) with
    | Fulfilled enhanced =>
        addNotification nid "Description polished by AI!" SUCCESS
          (setNewItem (withDescription enhanced (newItem st)) st)
    | Rejected _ => addNotification nid "AI enhancement failed" ERROR st
    end
  else st.

(** The ids of the items of a list, in its order. *)
Definition itemIds (l : list Item.t) : list string := map Item.id l.

(** What [handleAdminAction(id, action)] makes of the item list. *)
Definition adminItems (id : string) (action : AdminAction) (l : list Item.t)
    : list Item.t :=
  match action with
  | DELETE => filter (fun it => negb (String.eqb (Item.id it) id)) l
  | APPROVE =>
      map (fun it => if String.eqb (Item.id it) id
                     then Item.with_status UNCLAIMED it else it) l
  | MARK_RETURNED =>
      map (fun it => if String.eqb (Item.id it) id
                     then Item.with_status RETURNED it else it) l
  end.

(** What an event of the page can do to the item list and to the open
    sheet: nothing to the list, a report in front, a claim on the items of
    the sheet, or a moderator action. *)
Inductive listChange (st : AppState) (ev : Event) (st' : AppState) : Prop :=
| Unchanged :
    items st' = items st ->
    (selectedItem st' = selectedItem st \/ selectedItem st' = None \/
     exists it, In it (items st) /\ selectedItem st' = Some it) ->
    listChange st ev st'
| Posted u rid now nid :
    ev = SubmitPost rid now nid -> currentUser st = Some u ->
    items st' = postedItem (newItem st) rid now u :: items st ->
    selectedItem st' = selectedItem st ->
    listChange st ev st'
| Claimed sel u rid nid :
    ev = SubmitClaim rid nid ->
    selectedItem st = Some sel -> currentUser st = Some u ->
    claimFormVisible sel u = true ->
    items st' =
      map (fun it =>
             if String.eqb (Item.id it) (Item.id sel)
             then Item.with_status_claims CLAIM_REQUESTED
                    (Item.claims it ++ [newClaim rid u (claimForm st)]) it
             else it)
          (items st) ->
    selectedItem st' = None ->
    listChange st ev st'
| Moderated id action :
    (action = APPROVE ->
     exists p, In p (items st) /\ Item.status p = PENDING_APPROVAL /\ Item.id p = id) ->
    items st' = adminItems id action (items st) ->
    selectedItem st' = selectedItem st ->
    listChange st ev st'.

(** An item holds no claim, or one PENDING claim and is then
    CLAIM_REQUESTED or RETURNED. *)
Definition claimedOnce (it : Item.t) : Prop :=
  match Item.claims it with
  | [] => True
  | [c] => (Item.status it = CLAIM_REQUESTED \/ Item.status it = RETURNED) /\
           ClaimRequest.status c = PENDING
  | _ => False
  end.

(** The ids of the list are pairwise distinct, every item is
    [claimedOnce], and while the open sheet shows an UNCLAIMED item the
    items of the list with its id hold no claim. *)
Definition lifecycle (st : AppState) : Prop :=
  NoDup (itemIds (items st)) /\
  (forall it, In it (items st) -> claimedOnce it) /\
  (forall sel, selectedItem st = Some sel -> Item.status sel = UNCLAIMED ->
     forall it, In it (items st) -> Item.id it = Item.id sel -> Item.claims it = []).

(** [new] is the report [old], possibly with another status and with
    claims added after those of [old]. *)
Definition sameReport (old new : Item.t) : Prop :=
  Item.id new = Item.id old /\
  Item.title new = Item.title old /\
  Item.type new = Item.type old /\
  Item.category new = Item.category old /\
  Item.location new = Item.location old /\
  Item.date new = Item.date old /\
  Item.description new = Item.description old /\
  Item.imageUrl new = Item.imageUrl old /\
  Item.userId new = Item.userId old /\
  Item.createdAt new = Item.createdAt old /\
  exists more : list ClaimRequest.t, Item.claims new = (Item.claims old ++ more)%list.

(** Student B has submitted the claim form. *)
Definition claimedState : AppState := handleClaimSubmit "c1" "n1" studentBClaiming.

(** A moderator has left the page on the moderator tab and logged out;
    somebody has typed an email on the login screen. *)
Definition leftOnModeratorTab : AppState :=
  mkApp (INITIAL_ITEMS loadTime) None ADMIN_TAB None "" [] None
        (blankNewItem loadTime) (mkClaimForm "" "") "b@uni.edu".

(** A moderator has the sheet of the MacBook open and the claim form
    filled. *)
Definition moderatorOnSheet : AppState :=
  mkApp (INITIAL_ITEMS loadTime) (Some moderator) HOME (Some macBook) "" [] None
        (blankNewItem loadTime)
        (mkClaimForm "it has a rocket sticker on the lid" "dean@uni.edu")
        "dean@uni.edu".

(** Student A has written a description; the service is down. *)
Definition describing : AppState :=
  setNewItem (mkNewItem "Headphones" LOST ELECTRONICS "" "2024-05-15"
                        "broken headphones" "")
             studentADraft.

(** A moderator logs in and goes to the moderator tab. *)
Definition inboxRun : list Event :=
  [ TypeLoginEmail "dean@uni.edu";
    AdminPortal "1716200000000";
    GoToTab ADMIN_TAB ].

(** The state [inboxRun] ends in. *)
Definition moderatorInbox : AppState :=
  mkApp (INITIAL_ITEMS loadTime) (Some moderator) ADMIN_TAB None "" [] None
        (blankNewItem loadTime) (mkClaimForm "" "") "dean@uni.edu".

(** * Properties *)

(** ** Equality tests *)

Lemma ItemStatus_eqb_eq (a b : ItemStatus) : ItemStatus_eqb a b = true <-> a = b.
Proof. destruct a, b; simpl; split; intro H; congruence. Qed.

Lemma Role_eqb_eq (a b : Role) : Role_eqb a b = true <-> a = b.
Proof. destruct a, b; simpl; split; intro H; congruence. Qed.

Lemma negb_eqb_neq (a b : string) : negb (String.eqb a b) = true <-> a <> b.
Proof.
  rewrite negb_true_iff. split.
  - intros H E. apply String.eqb_eq in E. congruence.
  - intro H. apply String.eqb_neq. exact H.
Qed.

(** ** The listing *)

Lemma filteredItems_In items q cat viewer it :
  In it (filteredItems items q cat viewer) <->
  In it items /\ matchSearch q it = true /\ matchCategory cat it = true /\
  isVisible viewer it = true.
Proof. clear trim.
  unfold filteredItems. rewrite filter_In, !andb_true_iff. tauto.
Qed.

Lemma isVisible_pending viewer it :
  Item.status it = PENDING_APPROVAL ->
  isVisible viewer it = isOwner viewer it || isAdmin viewer.
Proof. intro H. unfold isVisible. rewrite H. reflexivity. Qed.

(** C1. An item with status PENDING_APPROVAL is in the result of
    [filteredItems] only if the viewer is its owner or an ADMIN, whatever
    the search query and the category filter are. *)
Theorem filteredItems_pending_owner_or_admin
    (items : list Item.t) (q : string) (cat : option Category)
    (viewer : option User.t) (it : Item.t) :
  In it (filteredItems items q cat viewer) ->
  Item.status it = PENDING_APPROVAL ->
  exists u, viewer = Some u /\ (User.id u = Item.userId it \/ User.role u = ADMIN).
Proof.
  intros Hin Hst.
  apply filteredItems_In in Hin. destruct Hin as (_ & _ & _ & Hvis).
  rewrite (isVisible_pending viewer it Hst) in Hvis.
  destruct viewer as [u|]; simpl in Hvis; [|discriminate].
  exists u. split; [reflexivity|].
  apply orb_true_iff in Hvis. destruct Hvis as [H|H].
  - left. apply String.eqb_eq in H. congruence.
  - right. apply Role_eqb_eq. exact H.
Qed.

(** The other direction: pending items of other owners never reach a
    viewer who is not an ADMIN, matching or not. *)
Lemma filteredItems_hides_pending items q cat viewer it :
  Item.status it = PENDING_APPROVAL ->
  isOwner viewer it = false -> isAdmin viewer = false ->
  ~ In it (filteredItems items q cat viewer).
Proof.
  intros Hst Ho Ha Hin. apply filteredItems_In in Hin.
  destruct Hin as (_ & _ & _ & Hvis).
  rewrite (isVisible_pending viewer it Hst), Ho, Ha in Hvis. discriminate.
Qed.

(** ** What the handlers do to the item list *)

Lemma items_delete id nid st :
  items (handleAdminAction id DELETE nid st) =
  filter (fun it => negb (String.eqb (Item.id it) id)) (items st).
Proof. reflexivity. Qed.

Lemma items_updateStatus id s nid notice st :
  items (updateStatus id s nid notice st) =
  map (fun it => if String.eqb (Item.id it) id then Item.with_status s it else it)
      (items st).
Proof. reflexivity. Qed.

Lemma items_approve id nid st :
  items (handleAdminAction id APPROVE nid st) =
  map (fun it => if String.eqb (Item.id it) id then Item.with_status UNCLAIMED it else it)
      (items st).
Proof. reflexivity. Qed.

Lemma items_mark_returned id nid st :
  items (handleAdminAction id MARK_RETURNED nid st) =
  map (fun it => if String.eqb (Item.id it) id then Item.with_status RETURNED it else it)
      (items st).
Proof. reflexivity. Qed.

Lemma items_handleClaimSubmit rid nid st sel u :
  selectedItem st = Some sel -> currentUser st = Some u ->
  items (handleClaimSubmit rid nid st) =
  map (fun it =>
         if String.eqb (Item.id it) (Item.id sel)
         then Item.with_status_claims CLAIM_REQUESTED
                (Item.claims it ++ [newClaim rid u (claimForm st)]) it
         else it)
      (items st).
Proof. intros Hs Hu. unfold handleClaimSubmit. rewrite Hs, Hu. reflexivity. Qed.

Lemma findItem_None id l :
  findItem id l = None <-> forall it, In it l -> Item.id it <> id.
Proof.
  unfold findItem. split.
  - intros H it Hin E.
    apply (find_none _ _ H) in Hin. simpl in Hin.
    rewrite E, String.eqb_refl in Hin. discriminate.
  - intro H. induction l as [|a l IH]; simpl; [reflexivity|].
    destruct (String.eqb (Item.id a) id) eqn:E.
    + apply String.eqb_eq in E. exfalso. apply (H a); [left; reflexivity | exact E].
    + apply IH. intros it Hin. apply H. right. exact Hin.
Qed.

Lemma allClaims_In id c l :
  In (id, c) (allClaims l) <->
  exists it, In it l /\ Item.id it = id /\ In c (Item.claims it).
Proof.
  unfold allClaims. rewrite in_flat_map. split.
  - intros (it & Hin & Hc). apply in_map_iff in Hc.
    destruct Hc as (c' & E & Hc'). inversion E; subst. exists it. auto.
  - intros (it & Hin & E & Hc). exists it. split; [exact Hin|].
    apply in_map_iff. exists c. subst. auto.
Qed.

(** C6. Deleting removes every item with the given id, whatever its
    status, and with it the claims it holds: no lookup by the id finds an
    item, no claim of the state is filed under the id, and the items with
    another id stay. *)
Theorem delete_removes_item_and_claims (st : AppState) (id nid : string) :
  let st' := handleAdminAction id DELETE nid st in
  findItem id (items st') = None /\
  (forall it, In it (items st') -> In it (items st) /\ Item.id it <> id) /\
  (forall c, ~ In (id, c) (allClaims (items st'))) /\
  (forall it, In it (items st) -> Item.id it <> id -> In it (items st')).
Proof. clear trim.
  intro st'. subst st'. rewrite items_delete.
  assert (Hgone : forall it,
             In it (filter (fun it => negb (String.eqb (Item.id it) id)) (items st)) ->
             In it (items st) /\ Item.id it <> id).
  { intros it Hin. apply filter_In in Hin. destruct Hin as [Hin Hne].
    split; [exact Hin|]. apply negb_eqb_neq. exact Hne. }
  split; [|split; [|split]].
  - apply findItem_None. intros it Hin. apply (Hgone it Hin).
  - exact Hgone.
  - intros c Hc. apply allClaims_In in Hc. destruct Hc as (it & Hin & E & _).
    apply Hgone in Hin. tauto.
  - intros it Hin Hne. apply filter_In. split; [exact Hin|].
    apply negb_eqb_neq. exact Hne.
Qed.

(** C7. [handlePost], for a logged-in submitter, puts in front of the list
    an item with status PENDING_APPROVAL, the submitter's id as owner, no
    claims, and the fields of the draft. *)
Theorem handlePost_creates_pending_item
    (st : AppState) (u : User.t) (rid now nid : string) :
  currentUser st = Some u ->
  exists item,
    items (handlePost rid now nid st) = item :: items st /\
    Item.status item = PENDING_APPROVAL /\
    Item.userId item = User.id u /\
    Item.claims item = [] /\
    Item.id item = rid /\ Item.createdAt item = now /\
    Item.title item = d_title (newItem st) /\
    Item.type item = d_type (newItem st) /\
    Item.category item = d_category (newItem st) /\
    Item.location item = d_location (newItem st) /\
    Item.date item = d_date (newItem st) /\
    Item.description item = d_description (newItem st).
Proof.
  intro Hu. exists (postedItem (newItem st) rid now u).
  unfold handlePost. rewrite Hu. simpl. repeat split; reflexivity.
Qed.

(** Without a logged-in user [handlePost] does nothing. *)
Lemma handlePost_logged_out st rid now nid :
  currentUser st = None -> handlePost rid now nid st = st.
Proof. intro H. unfold handlePost. rewrite H. reflexivity. Qed.

(** ** Frame of the moderator actions *)

Lemma Forall2_map_self (A : Type) (R : A -> A -> Prop) (f : A -> A) (l : list A) :
  (forall x, In x l -> R x (f x)) -> Forall2 R l (map f l).
Proof.
  induction l as [|a l IH]; intro H; simpl; constructor.
  - apply H. left. reflexivity.
  - apply IH. intros x Hx. apply H. right. exact Hx.
Qed.

Lemma map_unmatched (id : string) (f : Item.t -> Item.t) (l : list Item.t) :
  (forall it, In it l -> Item.id it <> id) ->
  map (fun it => if String.eqb (Item.id it) id then f it else it) l = l.
Proof.
  induction l as [|a l IH]; intro H; simpl; [reflexivity|].
  assert (Ha : String.eqb (Item.id a) id = false).
  { apply String.eqb_neq. apply H. left. reflexivity. }
  rewrite Ha, IH; [reflexivity|]. intros it Hin. apply H. right. exact Hin.
Qed.

Lemma filter_unmatched (id : string) (l : list Item.t) :
  (forall it, In it l -> Item.id it <> id) -> filter (otherId id) l = l.
Proof.
  induction l as [|a l IH]; intro H; simpl; [reflexivity|].
  assert (Ha : otherId id a = true).
  { apply negb_eqb_neq. apply H. left. reflexivity. }
  rewrite Ha, IH; [reflexivity|]. intros it Hin. apply H. right. exact Hin.
Qed.

Lemma with_status_sameButStatus s it : sameButStatus it (Item.with_status s it).
Proof. unfold sameButStatus. simpl. repeat split; reflexivity. Qed.

Lemma updateStatus_frame id s nid notice st :
  Forall2 (fun old new =>
             if String.eqb (Item.id old) id
             then sameButStatus old new /\ Item.status new = s
             else new = old)
          (items st) (items (updateStatus id s nid notice st)).
Proof.
  rewrite items_updateStatus. apply Forall2_map_self. intros x _.
  destruct (String.eqb (Item.id x) id).
  - split; [apply with_status_sameButStatus | reflexivity].
  - reflexivity.
Qed.

(** C10. APPROVE and MARK_RETURNED change, position by position, at most
    the status of the items whose id matches and nothing of the others;
    DELETE keeps the items with another id, in their order; and an id
    that matches no item leaves the list as it is under the three
    actions. *)
Theorem handleAdminAction_frame (st : AppState) (id nid : string) :
  (forall action, action <> DELETE ->
     Forall2 (fun old new =>
                if String.eqb (Item.id old) id then sameButStatus old new else new = old)
             (items st) (items (handleAdminAction id action nid st))) /\
  (forall it, In it (items st) -> Item.id it <> id ->
              In it (items (handleAdminAction id DELETE nid st))) /\
  filter (otherId id) (items (handleAdminAction id DELETE nid st))
  = filter (otherId id) (items st) /\
  ((forall it, In it (items st) -> Item.id it <> id) ->
   forall action, items (handleAdminAction id action nid st) = items st).
Proof. clear trim.
  split; [|split; [|split]].
  - intros action Hne.
    assert (H : forall s notice,
               Forall2 (fun old new =>
                          if String.eqb (Item.id old) id
                          then sameButStatus old new else new = old)
                       (items st) (items (updateStatus id s nid notice st))).
    { intros s notice.
      eapply Forall2_impl; [|apply updateStatus_frame].
      intros a b. simpl. destruct (String.eqb (Item.id a) id); tauto. }
    destruct action; [apply H | congruence | apply H].
  - intros it Hin Hne. rewrite items_delete. apply filter_In.
    split; [exact Hin | apply negb_eqb_neq; exact Hne].
  - rewrite items_delete. fold (otherId id).
    induction (items st) as [|a l IH]; simpl; [reflexivity|].
    destruct (otherId id a) eqn:E; simpl; [rewrite E, IH; reflexivity | exact IH].
  - intros Hno action. destruct action.
    + rewrite items_approve. apply map_unmatched. exact Hno.
    + rewrite items_delete. apply filter_unmatched. exact Hno.
    + rewrite items_mark_returned. apply map_unmatched. exact Hno.
Qed.

(** ** Text Assist *)

Lemma textOr_failed s fallback : trim s = "" -> textOr (Some s) fallback = fallback.
Proof. intro H. unfold textOr. rewrite H. reflexivity. Qed.

(** C8. When the AI call fails (it throws, or its text is absent or
    empty), [enhanceDescription] fulfils its promise with the input text
    itself: nothing is raised to the caller. *)
Theorem enhanceDescription_failure_is_identity
    (ai : string -> GenerateContent) (text : string) :
  callFailed (ai (enhancePrompt text)) ->
  enhanceDescription ai text = Fulfilled text.
Proof.
  unfold enhanceDescription, callFailed.
  destruct (ai (enhancePrompt text)) as [e|[s|]]; intro H.
  - reflexivity.
  - rewrite (@textOr_failed s text H). reflexivity.
  - reflexivity.
Qed.

(** Whatever the service does, the promise is fulfilled. *)
Lemma enhanceDescription_never_rejects ai text :
  exists v, enhanceDescription ai text = Fulfilled v.
Proof.
  unfold enhanceDescription. destruct (ai (enhancePrompt text)); eexists; reflexivity.
Qed.

(** ** Approving: the handler *)

Lemma with_status_idem s it :
  Item.with_status s (Item.with_status s it) = Item.with_status s it.
Proof. reflexivity. Qed.

Lemma updateStatus_twice id s nid notice nid' notice' st :
  items (updateStatus id s nid' notice' (updateStatus id s nid notice st))
  = items (updateStatus id s nid notice st).
Proof.
  rewrite !items_updateStatus, map_map. apply map_ext. intro it.
  destruct (String.eqb (Item.id it) id) eqn:E; simpl; rewrite E; reflexivity.
Qed.

Lemma pendingReports_In it l :
  In it (pendingReports l) <-> In it l /\ Item.status it = PENDING_APPROVAL.
Proof. unfold pendingReports. rewrite filter_In, ItemStatus_eqb_eq. tauto. Qed.

(** [handleAdminAction] with APPROVE, taken alone: every item with the id
    ends UNCLAIMED and the other items stay, the notice posted is a
    success and a second call changes nothing in the list.  On the page
    the Approve button exists only for the pending reports. *)
Theorem approve_sets_unclaimed_from_any_status (st : AppState) (id nid : string) :
  let st' := handleAdminAction id APPROVE nid st in
  Forall2 (fun old new =>
             if String.eqb (Item.id old) id
             then sameButStatus old new /\ Item.status new = UNCLAIMED
             else new = old)
          (items st) (items st') /\
  notifications st' = mkNotification nid "Item approved!" SUCCESS :: notifications st /\
  (forall nid2, items (handleAdminAction id APPROVE nid2 st') = items st') /\
  (forall n nid3 st2,
     dispatch st (ClickApprove n nid3) = Some st2 ->
     exists it, In it (items st) /\ Item.status it = PENDING_APPROVAL /\
                st2 = handleAdminAction (Item.id it) APPROVE nid3 st).
Proof.
  intro st'. subst st'. split; [|split; [|split]].
  - apply updateStatus_frame.
  - reflexivity.
  - intro nid2. apply updateStatus_twice.
  - intros n nid3 st2 Hd. unfold dispatch in Hd.
    destruct (currentUser st) as [u|]; [|discriminate].
    destruct (Tab_eqb (activeTab st) ADMIN_TAB); [|discriminate].
    destruct (nth_error (pendingReports (items st)) n) as [it|] eqn:En; [|discriminate].
    apply nth_error_In, pendingReports_In in En. destruct En as [Hin Hst].
    exists it. inversion Hd. auto.
Qed.

(** ** Claiming *)

Lemma claimFormVisible_true sel u :
  claimFormVisible sel u = true <->
  Item.userId sel <> User.id u /\ Item.status sel = UNCLAIMED.
Proof.
  unfold claimFormVisible. rewrite andb_true_iff, negb_eqb_neq, ItemStatus_eqb_eq.
  tauto.
Qed.

(** What the page requires before it runs [handleClaimSubmit]. *)
Lemma dispatch_SubmitClaim st rid nid st' :
  dispatch st (SubmitClaim rid nid) = Some st' ->
  exists sel u,
    selectedItem st = Some sel /\ currentUser st = Some u /\
    claimFormVisible sel u = true /\
    nonEmpty (f_message (claimForm st)) = true /\
    nonEmpty (f_contact (claimForm st)) = true /\
    st' = handleClaimSubmit rid nid st.
Proof.
  unfold dispatch. intro H.
  destruct (currentUser st) as [u|]; [|discriminate].
  destruct (selectedItem st) as [sel|]; [|discriminate].
  destruct (claimFormVisible sel u) eqn:Hv; [|discriminate].
  destruct (nonEmpty (f_message (claimForm st))) eqn:Hm; [|discriminate].
  destruct (nonEmpty (f_contact (claimForm st))) eqn:Hc; [|discriminate].
  simpl in H. inversion H. exists sel, u. repeat split; assumption || reflexivity.
Qed.

Lemma dispatch_SubmitClaim_closed st rid nid it :
  selectedItem st = Some it -> Item.status it <> UNCLAIMED ->
  dispatch st (SubmitClaim rid nid) = None.
Proof. clear trim.
  intros Hs Hst. destruct (dispatch st (SubmitClaim rid nid)) eqn:Hd; [|reflexivity].
  apply dispatch_SubmitClaim in Hd.
  destruct Hd as (sel & u & Hs' & _ & Hv & _).
  apply claimFormVisible_true in Hv. rewrite Hs in Hs'. inversion Hs'; subst. tauto.
Qed.

(** What a submission of the claim form does, in a state in which the
    page offers it: the items with the id of the sheet become
    CLAIM_REQUESTED with a PENDING claim of the user appended, the other
    items stay and the sheet is closed; the form is then not offered
    again, and not for an item reopened from the new list. *)
Theorem claim_form_submission
    (st st' : AppState) (rid nid : string) (sel : Item.t) (u : User.t) :
  selectedItem st = Some sel -> currentUser st = Some u ->
  dispatch st (SubmitClaim rid nid) = Some st' ->
  (Item.status sel = UNCLAIMED /\ Item.userId sel <> User.id u) /\
  Forall2 (fun old new =>
             if String.eqb (Item.id old) (Item.id sel)
             then new = Item.with_status_claims CLAIM_REQUESTED
                          (Item.claims old ++ [newClaim rid u (claimForm st)]) old
             else new = old)
          (items st) (items st') /\
  ClaimRequest.status (newClaim rid u (claimForm st)) = PENDING /\
  selectedItem st' = None /\
  (forall rid2 nid2, dispatch st' (SubmitClaim rid2 nid2) = None) /\
  (forall st2 it' rid2 nid2,
     selectedItem st2 = Some it' -> In it' (items st') ->
     Item.id it' = Item.id sel ->
     dispatch st2 (SubmitClaim rid2 nid2) = None).
Proof. clear trim.
  intros Hs Hu Hd. apply dispatch_SubmitClaim in Hd.
  destruct Hd as (sel' & u' & Hs' & Hu' & Hv & _ & _ & ->).
  rewrite Hs in Hs'. rewrite Hu in Hu'. inversion Hs'; inversion Hu'; subst sel' u'.
  apply claimFormVisible_true in Hv.
  rewrite (items_handleClaimSubmit rid nid st Hs Hu).
  assert (Hsel : selectedItem (handleClaimSubmit rid nid st) = None).
  { unfold handleClaimSubmit. rewrite Hs, Hu. reflexivity. }
  split; [tauto|]. split; [|split; [reflexivity|split; [exact Hsel|split]]].
  - apply Forall2_map_self. intros x _.
    destruct (String.eqb (Item.id x) (Item.id sel)); reflexivity.
  - intros rid2 nid2.
    destruct (dispatch (handleClaimSubmit rid nid st) (SubmitClaim rid2 nid2)) eqn:Hd;
      [|reflexivity].
    apply dispatch_SubmitClaim in Hd. destruct Hd as (s & _ & Hs2 & _).
    rewrite Hsel in Hs2. discriminate.
  - intros st2 it' rid2 nid2 Hs2 Hin Hid.
    apply (dispatch_SubmitClaim_closed st2 rid2 nid2 Hs2).
    apply in_map_iff in Hin. destruct Hin as (old & E & _).
    destruct (String.eqb (Item.id old) (Item.id sel)) eqn:Eid.
    + subst it'. simpl. discriminate.
    + subst it'. apply String.eqb_neq in Eid. contradiction.
Qed.

(** ** The invariant of the runs *)

Lemma shown_In l sel a :
  In a (shown l sel) <-> In a l \/ sel = Some a.
Proof.
  destruct sel as [s|]; simpl.
  - split; [intros [H|H]; [right; congruence | left; exact H]
           |intros [H|H]; [right; exact H | left; congruence]].
  - split; [intro H; left; exact H | intros [H|H]; [exact H | discriminate]].
Qed.

(** The shown items may be replaced by items that come, each, from a
    shown item with the same id and the same owner. *)
Lemma ownersAgree_from l sel l' sel' :
  ownersAgree l sel ->
  (forall a', In a' (shown l' sel') ->
     exists a, In a (shown l sel) /\
               Item.id a' = Item.id a /\ Item.userId a' = Item.userId a) ->
  ownersAgree l' sel'.
Proof.
  intros H Hfrom a' b' Ha' Hb' E.
  destruct (Hfrom a' Ha') as (a & Ha & Ea & Oa).
  destruct (Hfrom b' Hb') as (b & Hb & Eb & Ob).
  rewrite Oa, Ob. apply H; [exact Ha | exact Hb | congruence].
Qed.

Lemma invariant_same_items st st' :
  items st' = items st -> selectedItem st' = selectedItem st ->
  invariant st -> invariant st'.
Proof. unfold invariant. intros -> ->. tauto. Qed.

Lemma invariant_close st st' :
  items st' = items st -> selectedItem st' = None ->
  invariant st -> invariant st'.
Proof.
  unfold invariant. intros -> -> [Ho Hn]. split; [|exact Hn].
  eapply ownersAgree_from; [exact Ho|].
  intros a' Ha'. exists a'. split; [|split; reflexivity].
  apply shown_In. left. exact Ha'.
Qed.

Lemma invariant_open st it :
  In it (items st) -> invariant st -> invariant (setSelectedItem (Some it) st).
Proof.
  unfold invariant. simpl. intros Hin [Ho Hn]. split; [|exact Hn].
  eapply ownersAgree_from; [exact Ho|].
  intros a' Ha'. exists a'. split; [|split; reflexivity].
  apply shown_In. left. destruct Ha' as [<-|H]; assumption.
Qed.

Lemma invariant_openNth l n st st' :
  (forall it, In it l -> In it (items st)) ->
  openNth l n st = Some st' -> invariant st -> invariant st'.
Proof.
  unfold openNth. intros Hsub H Hinv.
  destruct (nth_error l n) as [it|] eqn:E; [|discriminate].
  inversion H. apply invariant_open; [|exact Hinv].
  apply Hsub. eapply nth_error_In. exact E.
Qed.

Lemma invariant_login prefix stamp r st :
  invariant st -> invariant (login prefix stamp r st).
Proof. clear trim.
  unfold login. destruct (nonEmpty (loginEmail st)); [|tauto].
  apply invariant_same_items; reflexivity.
Qed.

Lemma invariant_handlePost rid now nid st :
  freshIds st (SubmitPost rid now nid) = true ->
  invariant st -> invariant (handlePost rid now nid st).
Proof.
  intros Hfresh [Ho Hn]. unfold handlePost.
  destruct (currentUser st) as [u|]; [|split; assumption].
  simpl in Hfresh. apply andb_true_iff in Hfresh. destruct Hfresh as [Hl Hs].
  rewrite forallb_forall in Hl.
  assert (Hnew : forall a, In a (shown (items st) (selectedItem st)) -> Item.id a <> rid).
  { intros a Ha. apply shown_In in Ha. destruct Ha as [Ha|Ha].
    - apply negb_eqb_neq. apply Hl. exact Ha.
    - rewrite Ha in Hs. apply negb_eqb_neq. exact Hs. }
  unfold invariant. simpl. set (item := postedItem (newItem st) rid now u).
  split.
  - intros a b Ha Hb E.
    assert (Hcase : forall x, In x (shown (item :: items st) (selectedItem st)) ->
                              x = item \/ In x (shown (items st) (selectedItem st))).
    { intros x Hx. apply shown_In in Hx. destruct Hx as [[Hx|Hx]|Hx].
      - left. congruence.
      - right. apply shown_In. left. exact Hx.
      - right. apply shown_In. right. exact Hx. }
    destruct (Hcase a Ha) as [->|Ha']; destruct (Hcase b Hb) as [->|Hb'].
    + reflexivity.
    + exfalso. apply (Hnew b Hb'). rewrite <- E. reflexivity.
    + exfalso. apply (Hnew a Ha'). rewrite E. reflexivity.
    + apply Ho; assumption.
  - intros it c [<-|Hin] Hc; [destruct Hc | apply (Hn it c Hin Hc)].
Qed.

Lemma invariant_updateStatus id s nid notice st :
  invariant st -> invariant (updateStatus id s nid notice st).
Proof.
  intros [Ho Hn]. unfold invariant. rewrite items_updateStatus.
  change (selectedItem (updateStatus id s nid notice st)) with (selectedItem st).
  assert (Hfrom : forall a',
             In a' (map (fun it => if String.eqb (Item.id it) id
                                   then Item.with_status s it else it) (items st)) ->
             exists a, In a (items st) /\ Item.id a' = Item.id a /\
                       Item.userId a' = Item.userId a /\
                       Item.claims a' = Item.claims a).
  { intros a' Ha'. apply in_map_iff in Ha'. destruct Ha' as (a & <- & Ha).
    exists a. destruct (String.eqb (Item.id a) id); simpl; auto. }
  split.
  - eapply ownersAgree_from; [exact Ho|].
    intros a' Ha'. apply shown_In in Ha'. destruct Ha' as [Ha'|Ha'].
    + destruct (Hfrom a' Ha') as (a & Ha & E1 & E2 & _).
      exists a. split; [apply shown_In; left; exact Ha | auto].
    + exists a'. split; [apply shown_In; right; exact Ha' | auto].
  - intros it c Hin Hc. destruct (Hfrom it Hin) as (a & Ha & _ & E2 & E3).
    rewrite E2. rewrite E3 in Hc. apply (Hn a c Ha Hc).
Qed.

Lemma invariant_handleAdminAction id action nid st :
  invariant st -> invariant (handleAdminAction id action nid st).
Proof. clear trim.
  intro Hinv. destruct action;
    try (unfold handleAdminAction; apply invariant_updateStatus; exact Hinv).
  destruct Hinv as [Ho Hn]. unfold invariant. rewrite items_delete.
  change (selectedItem (handleAdminAction id DELETE nid st)) with (selectedItem st).
  split.
  - eapply ownersAgree_from; [exact Ho|].
    intros a' Ha'. exists a'. split; [|split; reflexivity].
    apply shown_In in Ha'. apply shown_In. destruct Ha' as [Ha'|Ha'].
    + left. apply filter_In in Ha'. tauto.
    + right. exact Ha'.
  - intros it c Hin Hc. apply filter_In in Hin. apply (Hn it c); tauto.
Qed.

(** The claim form keeps the invariant: the items the claim lands on have
    the owner of the item of the sheet, who is not the claimant. *)
Lemma invariant_handleClaimSubmit rid nid st sel u :
  selectedItem st = Some sel -> currentUser st = Some u ->
  Item.userId sel <> User.id u ->
  invariant st -> invariant (handleClaimSubmit rid nid st).
Proof.
  intros Hs Hu Hne [Ho Hn]. unfold invariant.
  rewrite (items_handleClaimSubmit rid nid st Hs Hu).
  assert (Hsel : selectedItem (handleClaimSubmit rid nid st) = None).
  { unfold handleClaimSubmit. rewrite Hs, Hu. reflexivity. }
  rewrite Hsel. split.
  - eapply ownersAgree_from; [exact Ho|].
    intros a' Ha'. simpl in Ha'. apply in_map_iff in Ha'. destruct Ha' as (a & <- & Ha).
    exists a. split; [apply shown_In; left; exact Ha|].
    destruct (String.eqb (Item.id a) (Item.id sel)); simpl; auto.
  - intros it c Hin Hc. apply in_map_iff in Hin. destruct Hin as (a & <- & Ha).
    destruct (String.eqb (Item.id a) (Item.id sel)) eqn:E.
    + simpl in Hc |- *. apply in_app_or in Hc. destruct Hc as [Hc|[<-|[]]].
      * apply (Hn a c Ha Hc).
      * simpl. apply String.eqb_eq in E.
        assert (Ea : Item.userId a = Item.userId sel).
        { apply Ho; [apply shown_In; left; exact Ha
                    |rewrite Hs; left; reflexivity | exact E]. }
        congruence.
    + apply (Hn a c Ha Hc).
Qed.

Lemma filteredItems_incl l q cat viewer it :
  In it (filteredItems l q cat viewer) -> In it l.
Proof. clear trim. intro H. apply filteredItems_In in H. tauto. Qed.

Lemma myItems_incl l viewer it : In it (myItems l viewer) -> In it l.
Proof. unfold myItems. intro H. apply filter_In in H. tauto. Qed.

Lemma myClaims_incl l viewer it : In it (myClaims l viewer) -> In it l.
Proof. unfold myClaims. intro H. apply filter_In in H. tauto. Qed.

Ltac split_offer H :=
  repeat match type of H with
         | context [match ?x with _ => _ end] => destruct x eqn:?; try discriminate H
         end.

Ltac keep_invariant Hinv :=
  first [ exact Hinv
        | apply invariant_login; exact Hinv
        | apply invariant_handleAdminAction; exact Hinv
        | apply invariant_updateStatus; exact Hinv
        | exact (@invariant_handleAdminAction _ DELETE _ _ Hinv)
        | eapply invariant_same_items; [| |exact Hinv]; reflexivity
        | eapply invariant_close; [| |exact Hinv]; reflexivity ].

(** Every event the page offers keeps the invariant. *)
Lemma dispatch_invariant st ev st' :
  freshIds st ev = true -> dispatch st ev = Some st' ->
  invariant st -> invariant st'.
Proof.
  intros Hf Hd Hinv.
  destruct ev; unfold dispatch in Hd;
    try (destruct (currentUser st) as [u|] eqn:Hu; [|try discriminate Hd]);
    try discriminate Hd.
  all: try (injection Hd as <-; keep_invariant Hinv; fail).
  all: try (split_offer Hd; injection Hd as <-; keep_invariant Hinv; fail).
  - (* OpenFeedItem *)
    destruct (Tab_eqb (activeTab st) HOME); [|discriminate].
    eapply invariant_openNth; [|exact Hd|exact Hinv].
    intros it. apply filteredItems_incl.
  - (* OpenMyReport *)
    destruct (Tab_eqb (activeTab st) MY_TRACE); [|discriminate].
    eapply invariant_openNth; [|exact Hd|exact Hinv].
    intros it. apply myItems_incl.
  - (* OpenMyClaim *)
    destruct (Tab_eqb (activeTab st) MY_TRACE); [|discriminate].
    eapply invariant_openNth; [|exact Hd|exact Hinv].
    intros it. apply myClaims_incl.
  - (* SubmitPost *)
    split_offer Hd. injection Hd as <-. apply invariant_handlePost; assumption.
  - (* SubmitClaim *)
    destruct (selectedItem st) as [sel|] eqn:Hs; [|discriminate].
    split_offer Hd. injection Hd as <-.
    match goal with
    | H : _ && _ && _ = true |- _ =>
        apply andb_true_iff in H; destruct H as [H _];
        apply andb_true_iff in H; destruct H as [H _];
        apply claimFormVisible_true in H; destruct H as [Hne _]
    end.
    eapply invariant_handleClaimSubmit; eassumption.
Qed.

Lemma invariant_initialState now : invariant (initialState now).
Proof.
  split.
  - intros a b Ha Hb E. simpl in Ha, Hb.
    destruct Ha as [<-|[<-|[<-|[]]]]; destruct Hb as [<-|[<-|[<-|[]]]];
      simpl in E |- *; congruence.
  - intros it c Hin Hc. simpl in Hin.
    destruct Hin as [<-|[<-|[<-|[]]]]; destruct Hc.
Qed.

Lemma reachable_invariant now st : reachable now st -> invariant st.
Proof.
  induction 1 as [|st ev st' _ IH Hf Hd].
  - apply invariant_initialState.
  - apply (dispatch_invariant _ Hf Hd IH).
Qed.

(** C4.  In every state of a run of the page, a claim submission that goes
    through never lands on an item whose owner is the claimant, and no
    item holds a claim filed by its own owner. *)
Theorem owner_never_claims_own_item (now : string) (st : AppState) :
  reachable now st ->
  (forall rid nid st' u sel it,
     dispatch st (SubmitClaim rid nid) = Some st' ->
     currentUser st = Some u -> selectedItem st = Some sel ->
     In it (items st) -> Item.id it = Item.id sel ->
     Item.userId it <> User.id u) /\
  (forall it c, In it (items st) -> In c (Item.claims it) ->
                ClaimRequest.userId c <> Item.userId it).
Proof.
  intro Hr. destruct (reachable_invariant Hr) as [Ho Hn]. split; [|exact Hn].
  intros rid nid st' u sel it Hd Hu Hs Hin E.
  apply dispatch_SubmitClaim in Hd.
  destruct Hd as (sel' & u' & Hs' & Hu' & Hv & _).
  rewrite Hs in Hs'. rewrite Hu in Hu'. inversion Hs'; inversion Hu'; subst sel' u'.
  apply claimFormVisible_true in Hv. destruct Hv as [Hne _].
  assert (Eo : Item.userId it = Item.userId sel).
  { apply Ho; [apply shown_In; left; exact Hin | rewrite Hs; left; reflexivity | exact E]. }
  congruence.
Qed.

Lemma run_reachable now st evs st' :
  reachable now st -> freshRun st evs = true -> run st evs = Some st' ->
  reachable now st'.
Proof.
  revert st. induction evs as [|ev evs IH]; intros st Hr Hf Hrun; simpl in *.
  - injection Hrun as <-. exact Hr.
  - apply andb_true_iff in Hf. destruct Hf as [Hf1 Hf2].
    destruct (dispatch st ev) as [st1|] eqn:Hd; [|discriminate].
    apply (IH st1); [|exact Hf2|exact Hrun].
    apply (reach_step ev Hr Hf1 Hd).
Qed.

(** An owner looking at the sheet of the own item is not offered the claim
    form, whatever its status. *)
Lemma owner_sees_no_claim_form st sel u rid nid :
  selectedItem st = Some sel -> currentUser st = Some u ->
  Item.userId sel = User.id u ->
  dispatch st (SubmitClaim rid nid) = None /\
  (forall f, dispatch st (EditClaimForm f) = None).
Proof.
  intros Hs Hu E.
  assert (Hv : claimFormVisible sel u = false).
  { unfold claimFormVisible. rewrite E, String.eqb_refl. reflexivity. }
  unfold dispatch. rewrite Hu, Hs, Hv. split; [reflexivity | intro f; reflexivity].
Qed.

(** ** The length of the message of a claim *)

(** [handleClaimSubmit] files the claim whatever the form holds: it reads
    the message without looking at its length. *)
Lemma handleClaimSubmit_any_message rid nid st sel u :
  selectedItem st = Some sel -> currentUser st = Some u -> In sel (items st) ->
  exists it', In it' (items (handleClaimSubmit rid nid st)) /\
              Item.id it' = Item.id sel /\
              In (newClaim rid u (claimForm st)) (Item.claims it').
Proof.
  intros Hs Hu Hin. rewrite (items_handleClaimSubmit rid nid st Hs Hu).
  exists (Item.with_status_claims CLAIM_REQUESTED
            (Item.claims sel ++ [newClaim rid u (claimForm st)]) sel).
  split; [|split; [reflexivity | simpl; apply in_or_app; right; left; reflexivity]].
  apply in_map_iff. exists sel. rewrite String.eqb_refl. auto.
Qed.

(** ** The category Text Assist suggests *)

(** On a failed call the suggestion is the catch-all category. *)
Lemma suggestCategory_failure_is_Other ai title description :
  callFailed (ai (categoryPrompt title description)) ->
  suggestCategory ai title description = Fulfilled "Other".
Proof.
  unfold suggestCategory, callFailed.
  destruct (ai (categoryPrompt title description)) as [e|[s|]]; intro H.
  - reflexivity.
  - rewrite (@textOr_failed s "Other" H). reflexivity.
  - reflexivity.
Qed.

Lemma suggestCategory_never_rejects ai title description :
  exists v, suggestCategory ai title description = Fulfilled v.
Proof.
  unfold suggestCategory.
  destruct (ai (categoryPrompt title description)); eexists; reflexivity.
Qed.

(** Otherwise the suggestion is the reply of the service, trimmed: a
    category when the reply is one. *)
Lemma suggestCategory_reply ai title description s :
  ai (categoryPrompt title description) = Response (Some s) -> trim s <> "" ->
  suggestCategory ai title description = Fulfilled (trim s).
Proof.
  intros H Hne. unfold suggestCategory. rewrite H. unfold textOr.
  destruct (trim s); [congruence | reflexivity].
Qed.

(** ** The scenario of the specification, run on the page *)

(** * More properties of the code *)

(** ** Text search *)

Lemma append_assoc (a b c : string) : (a ++ b) ++ c = a ++ (b ++ c).
Proof. induction a as [|x a IH]; simpl; [reflexivity | rewrite IH; reflexivity]. Qed.

Lemma prefix_append (q s : string) :
  String.prefix q s = true <-> exists b, s = q ++ b.
Proof.
  revert s. induction q as [|x q IH]; intro s.
  - destruct s; simpl; split; intros _; try reflexivity; eexists; reflexivity.
  - destruct s as [|y s]; simpl.
    + split; [discriminate | intros [b H]; discriminate].
    + destruct (ascii_dec x y) as [->|Hne].
      * rewrite IH. split; intros [b H]; exists b; congruence.
      * split; [discriminate | intros [b H]; congruence].
Qed.

Lemma includes_append (s q : string) :
  includes s q = true <-> exists a b, s = a ++ q ++ b.
Proof.
  induction s as [|x s IH]; cbn [includes].
  - rewrite orb_false_r, prefix_append. split.
    + intros [b H]. exists "", b. exact H.
    + intros ([|y a] & b & H); [exists b; exact H | discriminate].
  - rewrite orb_true_iff, IH, prefix_append. split.
    + intros [[b H]|(a & b & H)].
      * exists "", b. exact H.
      * exists (String x a), b. simpl. congruence.
    + intros ([|y a] & b & H).
      * left. exists b. exact H.
      * right. exists a, b. simpl in H. congruence.
Qed.

Lemma includes_part (s q r : string) :
  includes s (q ++ r) = true -> includes s q = true /\ includes s r = true.
Proof.
  rewrite !includes_append. intros (a & b & H). split.
  - exists a, (r ++ b). rewrite H, append_assoc. reflexivity.
  - exists (a ++ q), b. rewrite H, !append_assoc. reflexivity.
Qed.

Lemma includes_empty (s : string) : includes s "" = true.
Proof. destruct s; reflexivity. Qed.

Lemma matchSearch_part q r it :
  toLowerCase (q ++ r) = toLowerCase q ++ toLowerCase r ->
  matchSearch (q ++ r) it = true -> matchSearch q it = true /\ matchSearch r it = true.
Proof. clear trim.
  intro Hqr. unfold matchSearch. rewrite Hqr, !orb_true_iff.
  intros [H|H]; apply includes_part in H; tauto.
Qed.

(** X1.  Typing more into the search box never adds a card, for a query
    whose lower case is the lower case of its parts put together (as it
    is for a query of ASCII characters): what is listed for the query is
    listed for each of the two parts. *)
Theorem search_narrows
    (items : list Item.t) (q r : string) (cat : option Category)
    (viewer : option User.t) (it : Item.t) :
  toLowerCase (q ++ r) = toLowerCase q ++ toLowerCase r ->
  In it (filteredItems items (q ++ r) cat viewer) ->
  In it (filteredItems items q cat viewer) /\ In it (filteredItems items r cat viewer).
Proof. clear trim.
  intro Hqr. rewrite !filteredItems_In. intros (Hin & Hs & Hc & Hv).
  apply (matchSearch_part q r it Hqr) in Hs. tauto.
Qed.

Lemma matchSearch_empty it : matchSearch "" it = true.
Proof using toLowerCase_empty. unfold matchSearch. rewrite toLowerCase_empty, includes_empty. reflexivity. Qed.

Lemma filter_all (A : Type) (f : A -> bool) (l : list A) :
  (forall x, In x l -> f x = true) -> filter f l = l.
Proof.
  induction l as [|a l IH]; intro H; simpl; [reflexivity|].
  rewrite (H a (or_introl eq_refl)), IH; [reflexivity|].
  intros x Hx. apply H. right. exact Hx.
Qed.

(** X2.  With an empty search box and "All Items" the feed is the list of
    the visible items, in the order of the list: everything for an ADMIN,
    and everything that is not pending for a visitor who owns nothing.
    (The lower case of the empty query is the empty string.) *)
Theorem unfiltered_feed (items : list Item.t) (viewer : option User.t) :
  filteredItems items "" None viewer = filter (isVisible viewer) items /\
  (isAdmin viewer = true -> filteredItems items "" None viewer = items) /\
  (isAdmin viewer = false -> myItems items viewer = [] ->
   filteredItems items "" None viewer
   = filter (fun it => negb (ItemStatus_eqb (Item.status it) PENDING_APPROVAL)) items).
Proof using toLowerCase_empty.
  assert (E : filteredItems items "" None viewer = filter (isVisible viewer) items).
  { unfold filteredItems. apply filter_ext. intro it.
    rewrite matchSearch_empty. reflexivity. }
  split; [exact E|]. rewrite E. split.
  - intro Ha. apply filter_all. intros it _. unfold isVisible.
    rewrite Ha, orb_true_r. reflexivity.
  - intros Ha Hmine. apply filter_ext_in. intros it Hin. unfold isVisible.
    rewrite Ha, orb_false_r.
    assert (Ho : isOwner viewer it = false).
    { destruct (isOwner viewer it) eqn:Ho; [|reflexivity].
      assert (Hm : In it (myItems items viewer)).
      { unfold myItems. apply filter_In. auto. }
      rewrite Hmine in Hm. destruct Hm. }
    rewrite Ho, orb_false_r. reflexivity.
Qed.

(** X3.  An owner finds every own report in the feed as soon as it
    matches the search and the category, pending ones included. *)
Theorem own_reports_in_feed
    (items : list Item.t) (q : string) (cat : option Category)
    (viewer : option User.t) (it : Item.t) :
  In it (myItems items viewer) ->
  matchSearch q it = true -> matchCategory cat it = true ->
  In it (filteredItems items q cat viewer).
Proof.
  unfold myItems. rewrite filter_In, filteredItems_In. intros [Hin Ho] Hs Hc.
  repeat split; try assumption. unfold isVisible. rewrite Ho, orb_true_r. reflexivity.
Qed.

(** ** Active claims *)

Lemma find_existsb (A : Type) (f : A -> bool) (l : list A) :
  existsb f l = true <-> exists x, find f l = Some x.
Proof.
  induction l as [|a l IH]; simpl.
  - split; [discriminate | intros [x H]; discriminate].
  - destruct (f a); simpl; [split; [intros _; exists a; reflexivity | reflexivity] | exact IH].
Qed.

(** X4.  The cards of "Active Claims" are the items that hold a claim of
    the user, and the label of a card is never blank: it is the status of
    the first claim of the user in the item. *)
Theorem active_claim_has_status (items : list Item.t) (u : User.t) (it : Item.t) :
  In it (myClaims items (Some u)) <->
  In it items /\
  exists c, find (isClaimant (Some u)) (Item.claims it) = Some c /\
            ClaimRequest.userId c = User.id u /\
            myClaimStatus u it = Some (ClaimRequest.status c).
Proof.
  unfold myClaims, myClaimStatus. rewrite filter_In, find_existsb. split.
  - intros [Hin [c Hc]]. split; [exact Hin|]. exists c. rewrite Hc.
    split; [reflexivity|]. split; [|reflexivity].
    apply find_some in Hc. destruct Hc as [_ Hc]. apply String.eqb_eq. exact Hc.
  - intros [Hin (c & Hc & _)]. split; [exact Hin | exists c; exact Hc].
Qed.

(** ** Posting *)

(** X5.  A report just posted is the first card of "My Reports" of its
    author and the first report of the moderator's inbox, and it changes
    nothing in the feed of anybody else who is not an ADMIN, logged in or
    not; the form is blank again and the page is on "My Trace". *)
Theorem handlePost_lists (st : AppState) (u : User.t) (rid now nid : string) :
  currentUser st = Some u ->
  let st' := handlePost rid now nid st in
  let item := postedItem (newItem st) rid now u in
  myItems (items st') (Some u) = item :: myItems (items st) (Some u) /\
  pendingReports (items st') = item :: pendingReports (items st) /\
  (forall v q cat, User.id v <> User.id u -> User.role v <> ADMIN ->
     filteredItems (items st') q cat (Some v) = filteredItems (items st) q cat (Some v)) /\
  (forall q cat,
     filteredItems (items st') q cat None = filteredItems (items st) q cat None) /\
  activeTab st' = MY_TRACE /\ newItem st' = blankNewItem now /\
  selectedItem st' = selectedItem st.
Proof.
  intros Hu st' item. subst st' item. unfold handlePost. rewrite Hu.
  cbn [items setActiveTab addNotification setNotifications setNewItem setItems
       activeTab newItem selectedItem].
  repeat split.
  - unfold myItems. cbn [filter isOwner postedItem Item.userId].
    rewrite String.eqb_refl. reflexivity.
  - intros v q cat Hid Hrole. unfold filteredItems. cbn [filter].
    assert (Hv : isVisible (Some v) (postedItem (newItem st) rid now u) = false).
    { unfold isVisible, isOwner, isAdmin. cbn [postedItem Item.status Item.userId].
      assert (E1 : String.eqb (User.id u) (User.id v) = false).
      { apply String.eqb_neq. congruence. }
      assert (E2 : Role_eqb (User.role v) ADMIN = false).
      { destruct (Role_eqb (User.role v) ADMIN) eqn:E; [|reflexivity].
        apply Role_eqb_eq in E. contradiction. }
      rewrite E1, E2. reflexivity. }
    rewrite Hv, andb_false_r. reflexivity.
  - intros q cat. unfold filteredItems. cbn [filter].
    assert (Hv : isVisible None (postedItem (newItem st) rid now u) = false)
      by reflexivity.
    rewrite Hv, andb_false_r. reflexivity.
Qed.

(** ** Moderator actions on the list *)

Lemma items_handleAdminAction id action nid st :
  items (handleAdminAction id action nid st) = adminItems id action (items st).
Proof. destruct action; reflexivity. Qed.

Ltac eqb_cases :=
  repeat match goal with
         | |- context [String.eqb ?a ?b] => destruct (String.eqb a b) eqn:?; cbn
         | H : context [String.eqb ?a ?b] |- _ => destruct (String.eqb a b) eqn:?; cbn in H
         end.

Ltac eqb_clash :=
  repeat match goal with
         | H : String.eqb _ _ = true |- _ => apply String.eqb_eq in H
         | H : String.eqb _ _ = false |- _ => apply String.eqb_neq in H
         end;
  try congruence.

Lemma pending_after_status id s l :
  s <> PENDING_APPROVAL ->
  pendingReports
    (map (fun it => if String.eqb (Item.id it) id then Item.with_status s it else it) l)
  = filter (otherId id) (pendingReports l).
Proof.
  intro Hs. unfold pendingReports, otherId.
  assert (Es : ItemStatus_eqb s PENDING_APPROVAL = false)
    by (destruct s; [contradiction Hs |..]; reflexivity).
  induction l as [|x l IH]; [reflexivity|].
  cbn [map filter].
  destruct (String.eqb (Item.id x) id) eqn:E.
  - cbn [Item.with_status Item.status]. rewrite Es, IH.
    destruct (ItemStatus_eqb (Item.status x) PENDING_APPROVAL); [|reflexivity].
    cbn [filter]. rewrite E. reflexivity.
  - rewrite IH.
    destruct (ItemStatus_eqb (Item.status x) PENDING_APPROVAL); [|reflexivity].
    cbn [filter]. rewrite E. reflexivity.
Qed.

Lemma filter_swap (A : Type) (f g : A -> bool) (l : list A) :
  filter f (filter g l) = filter g (filter f l).
Proof.
  induction l as [|x l IH]; [reflexivity|]. cbn [filter].
  destruct (f x) eqn:Ef, (g x) eqn:Eg; cbn [filter]; rewrite ?Ef, ?Eg, IH; reflexivity.
Qed.

(** X6.  Whatever the action, the reports with the id are gone from the
    moderator's inbox afterwards and the other pending reports stay, in
    their order. *)
Theorem inbox_after_action (st : AppState) (id : string) (action : AdminAction)
    (nid : string) :
  pendingReports (items (handleAdminAction id action nid st))
  = filter (otherId id) (pendingReports (items st)).
Proof.
  rewrite items_handleAdminAction. destruct action; cbn [adminItems].
  - apply pending_after_status. discriminate.
  - unfold pendingReports, otherId. apply filter_swap.
  - apply pending_after_status. discriminate.
Qed.

Lemma adminItems_commute id1 id2 a1 a2 l :
  id1 <> id2 ->
  adminItems id1 a1 (adminItems id2 a2 l) = adminItems id2 a2 (adminItems id1 a1 l).
Proof.
  intro Hne. induction l as [|x l IH]; [destruct a1, a2; reflexivity|].
  destruct a1, a2; cbn -[String.eqb] in *;
    destruct (String.eqb (Item.id x) id1) eqn:E1;
    destruct (String.eqb (Item.id x) id2) eqn:E2;
    cbn -[String.eqb]; rewrite ?E1, ?E2; cbn -[String.eqb]; rewrite ?E1, ?E2;
    try (rewrite IH; reflexivity);
    try (f_equal; exact IH);
    try exact IH;
    exfalso; eqb_clash.
Qed.

(** X7.  Moderator actions on two different ids commute: the list of
    items at the end does not depend on which of the two came first. *)
Theorem actions_on_different_ids_commute
    (st : AppState) (id1 id2 : string) (a1 a2 : AdminAction) (n1 n2 : string) :
  id1 <> id2 ->
  items (handleAdminAction id1 a1 n1 (handleAdminAction id2 a2 n2 st))
  = items (handleAdminAction id2 a2 n2 (handleAdminAction id1 a1 n1 st)).
Proof.
  intro Hne. rewrite !items_handleAdminAction. apply adminItems_commute. exact Hne.
Qed.

(** X8.  On one id the later action decides, except that a deletion is
    final: after DELETE no action brings the item back, and DELETE after
    any action is DELETE. *)
Theorem actions_on_one_id (st : AppState) (id : string) (a1 a2 : AdminAction)
    (n1 n2 : string) :
  items (handleAdminAction id a2 n2 (handleAdminAction id a1 n1 st))
  = items (handleAdminAction id
             (match a1 with DELETE => DELETE | _ => a2 end) n2 st).
Proof.
  rewrite !items_handleAdminAction.
  induction (items st) as [|x l IH]; [destruct a1, a2; reflexivity|].
  destruct a1, a2; cbn -[String.eqb] in *;
    destruct (String.eqb (Item.id x) id) eqn:E;
    cbn -[String.eqb]; rewrite ?E; cbn -[String.eqb]; rewrite ?E;
    try (rewrite IH; reflexivity); try (f_equal; exact IH); exact IH.
Qed.

(** ** What one event does to the list *)

Ltac unchanged :=
  apply Unchanged; [reflexivity | first [left; reflexivity | right; left; reflexivity]].

Lemma openNth_listChange l n st ev st' :
  (forall it, In it l -> In it (items st)) ->
  openNth l n st = Some st' -> listChange st ev st'.
Proof.
  unfold openNth. intros Hsub H.
  destruct (nth_error l n) as [it|] eqn:E; [|discriminate].
  injection H as <-. apply Unchanged; [reflexivity|].
  right. right. exists it. split; [|reflexivity].
  apply Hsub. eapply nth_error_In. exact E.
Qed.

Lemma login_listChange prefix stamp r st ev : listChange st ev (login prefix stamp r st).
Proof. unfold login. destruct (nonEmpty (loginEmail st)); unchanged. Qed.

Lemma dispatch_listChange st ev st' :
  dispatch st ev = Some st' -> listChange st ev st'.
Proof.
  intro Hd.
  destruct ev; unfold dispatch in Hd;
    try (destruct (currentUser st) as [u|] eqn:Hu; [|try discriminate Hd]);
    try discriminate Hd.
  all: try (injection Hd as <-; first [unchanged | apply login_listChange]; fail).
  all: try (split_offer Hd; injection Hd as <-; unchanged; fail).
  - (* OpenFeedItem *)
    destruct (Tab_eqb (activeTab st) HOME); [|discriminate].
    eapply openNth_listChange; [|exact Hd]. intro it. apply filteredItems_incl.
  - (* OpenMyReport *)
    destruct (Tab_eqb (activeTab st) MY_TRACE); [|discriminate].
    eapply openNth_listChange; [|exact Hd]. intro it. apply myItems_incl.
  - (* OpenMyClaim *)
    destruct (Tab_eqb (activeTab st) MY_TRACE); [|discriminate].
    eapply openNth_listChange; [|exact Hd]. intro it. apply myClaims_incl.
  - (* SubmitPost *)
    split_offer Hd. injection Hd as <-.
    eapply Posted; [reflexivity | exact Hu | | ];
      unfold handlePost; rewrite Hu; reflexivity.
  - (* SubmitClaim *)
    assert (Hd' : dispatch st (SubmitClaim rid nid) = Some st').
    { unfold dispatch. rewrite Hu. exact Hd. }
    apply dispatch_SubmitClaim in Hd'.
    destruct Hd' as (sel & u' & Hs & Hu' & Hv & _ & _ & ->).
    rewrite Hu in Hu'. injection Hu' as <-.
    eapply Claimed; [reflexivity | exact Hs | exact Hu | exact Hv | | ].
    + apply (items_handleClaimSubmit rid nid st Hs Hu).
    + unfold handleClaimSubmit. rewrite Hs, Hu. reflexivity.
  - (* ClickApprove *)
    split_offer Hd. injection Hd as <-.
    match goal with
    | H : nth_error (pendingReports (items st)) _ = Some ?p |- _ =>
        apply nth_error_In, pendingReports_In in H; destruct H as [Hin Hp];
        apply Moderated with (id := Item.id p) (action := APPROVE);
          [intros _; exists p; auto | reflexivity | reflexivity]
    end.
  - (* ClickReject *)
    split_offer Hd. injection Hd as <-.
    match goal with
    | H : nth_error (pendingReports (items st)) _ = Some ?p |- _ =>
        apply Moderated with (id := Item.id p) (action := DELETE);
          [discriminate | reflexivity | reflexivity]
    end.
  - (* ClickMarkReturned *)
    split_offer Hd. injection Hd as <-.
    match goal with
    | H : selectedItem st = Some ?p |- _ =>
        apply Moderated with (id := Item.id p) (action := MARK_RETURNED);
          [discriminate | reflexivity | reflexivity]
    end.
  - (* ClickDelete *)
    split_offer Hd. injection Hd as <-.
    match goal with
    | H : selectedItem st = Some ?p |- _ =>
        apply Moderated with (id := Item.id p) (action := DELETE);
          [discriminate | reflexivity | reflexivity]
    end.
Qed.

Lemma itemIds_status id s l :
  itemIds (map (fun it => if String.eqb (Item.id it) id
                          then Item.with_status s it else it) l)
  = itemIds l.
Proof.
  unfold itemIds. rewrite map_map. apply map_ext. intro x.
  destruct (String.eqb (Item.id x) id); reflexivity.
Qed.

Lemma itemIds_claim id cs l :
  itemIds (map (fun it => if String.eqb (Item.id it) id
                          then Item.with_status_claims CLAIM_REQUESTED (cs it) it
                          else it) l)
  = itemIds l.
Proof.
  unfold itemIds. rewrite map_map. apply map_ext. intro x.
  destruct (String.eqb (Item.id x) id); reflexivity.
Qed.

Lemma itemIds_delete id l :
  itemIds (filter (fun it => negb (String.eqb (Item.id it) id)) l)
  = filter (fun i => negb (String.eqb i id)) (itemIds l).
Proof.
  unfold itemIds. induction l as [|x l IH]; [reflexivity|]. cbn [filter map].
  destruct (negb (String.eqb (Item.id x) id)); cbn [map]; rewrite IH; reflexivity.
Qed.

Lemma itemIds_adminItems id action l :
  itemIds (adminItems id action l)
  = match action with
    | DELETE => filter (fun i => negb (String.eqb i id)) (itemIds l)
    | _ => itemIds l
    end.
Proof.
  destruct action; cbn [adminItems];
    [apply itemIds_status | apply itemIds_delete | apply itemIds_status].
Qed.

(** X9.  No event renames, reorders or duplicates a report: the ids of the
    list stay as they are, or get the id of the new report in front, or
    lose the occurrences of one id. *)
Theorem ids_after_event (st : AppState) (ev : Event) (st' : AppState) :
  dispatch st ev = Some st' ->
  itemIds (items st') = itemIds (items st) \/
  (exists rid now nid,
     ev = SubmitPost rid now nid /\ itemIds (items st') = rid :: itemIds (items st)) \/
  (exists id,
     itemIds (items st') = filter (fun i => negb (String.eqb i id)) (itemIds (items st))).
Proof.
  intro Hd. apply dispatch_listChange in Hd.
  destruct Hd as [Hi _ | u rid now nid Hev _ Hi _ | sel u rid nid _ _ _ _ Hi _
                 | id action _ Hi _]; rewrite Hi.
  - left. reflexivity.
  - right. left. exists rid, now, nid. split; [exact Hev | reflexivity].
  - left. apply (itemIds_claim (Item.id sel)
                   (fun it => Item.claims it ++ [newClaim rid u (claimForm st)])%list).
  - rewrite itemIds_adminItems. destruct action.
    + left. reflexivity.
    + right. right. exists id. reflexivity.
    + left. reflexivity.
Qed.

(** ** The life of a report *)

Lemma NoDup_ids_inj l a b :
  NoDup (itemIds l) -> In a l -> In b l -> Item.id a = Item.id b -> a = b.
Proof.
  unfold itemIds. induction l as [|x l IH]; intros Hnd Ha Hb E; [destruct Ha|].
  cbn [map] in Hnd. inversion Hnd as [|? ? Hnotin Hnd']; subst.
  destruct Ha as [->|Ha], Hb as [->|Hb].
  - reflexivity.
  - exfalso. apply Hnotin. rewrite E. apply in_map. exact Hb.
  - exfalso. apply Hnotin. rewrite <- E. apply in_map. exact Ha.
  - apply IH; assumption.
Qed.

Lemma claimedOnce_open it :
  claimedOnce it ->
  Item.status it = PENDING_APPROVAL \/ Item.status it = UNCLAIMED ->
  Item.claims it = [].
Proof.
  unfold claimedOnce. destruct (Item.claims it) as [|c [|c' cs]]; intros H Hs.
  - reflexivity.
  - destruct H as [[H|H] _], Hs as [Hs|Hs]; congruence.
  - contradiction.
Qed.

Lemma claimedOnce_no_claims s it :
  Item.claims it = [] -> claimedOnce (Item.with_status s it).
Proof. intro H. unfold claimedOnce. cbn [Item.with_status Item.claims]. rewrite H. exact I. Qed.

Lemma claimedOnce_returned it :
  claimedOnce it -> claimedOnce (Item.with_status RETURNED it).
Proof.
  unfold claimedOnce. cbn [Item.with_status Item.claims Item.status].
  destruct (Item.claims it) as [|c [|c' cs]]; [tauto | | tauto].
  intros [_ H]. split; [right; reflexivity | exact H].
Qed.

Lemma lifecycle_step st ev st' :
  freshIds st ev = true -> listChange st ev st' -> lifecycle st -> lifecycle st'.
Proof. clear trim.
  intros Hf Hc (Hnd & Hco & Hsh).
  destruct Hc as [Hi Hs | u rid now nid Hev Hu Hi Hs | sel u rid nid Hev Hsel Hu Hv Hi Hs
                 | id action Hap Hi Hs]; unfold lifecycle; rewrite Hi.
  - (* the list is the same *)
    split; [exact Hnd|]. split; [exact Hco|].
    intros sel' Hsel' Hst it Hin Hid.
    destruct Hs as [E|[E|(it0 & Hin0 & E)]]; rewrite E in Hsel'.
    + apply (Hsh sel'); assumption.
    + discriminate.
    + injection Hsel' as <-.
      assert (it = it0) by (apply (NoDup_ids_inj (items st)); assumption).
      subst it. apply claimedOnce_open; [apply Hco; exact Hin0 | right; exact Hst].
  - (* a report in front *)
    subst ev. cbn [freshIds] in Hf. apply andb_true_iff in Hf. destruct Hf as [Hl Hfs].
    rewrite forallb_forall in Hl.
    split; [|split].
    + cbn [itemIds map postedItem Item.id]. constructor; [|exact Hnd].
      intro Hin. apply in_map_iff in Hin. destruct Hin as (x & Ex & Hx).
      apply Hl in Hx. apply negb_eqb_neq in Hx. contradiction.
    + intros it [<-|Hin]; [exact I | apply Hco; exact Hin].
    + rewrite Hs. intros sel' Hsel' Hst it [<-|Hin] Hid.
      * reflexivity.
      * apply (Hsh sel'); assumption.
  - (* a claim *)
    apply claimFormVisible_true in Hv. destruct Hv as [_ Hst].
    split; [|split].
    + rewrite (itemIds_claim (Item.id sel)
                 (fun it => Item.claims it ++ [newClaim rid u (claimForm st)])%list).
      exact Hnd.
    + intros it' Hin'. apply in_map_iff in Hin'. destruct Hin' as (x & <- & Hx).
      destruct (String.eqb (Item.id x) (Item.id sel)) eqn:E; [|apply Hco; exact Hx].
      apply String.eqb_eq in E.
      rewrite (Hsh sel Hsel Hst x Hx E).
      unfold claimedOnce. cbn. split; [left; reflexivity | reflexivity].
    + rewrite Hs. discriminate.
  - (* a moderator action *)
    assert (Hfrom : forall s it',
               In it' (map (fun it => if String.eqb (Item.id it) id
                                      then Item.with_status s it else it) (items st)) ->
               exists x, In x (items st) /\ Item.id it' = Item.id x /\
                         Item.claims it' = Item.claims x /\
                         (it' = x \/ (Item.id x = id /\ it' = Item.with_status s x))).
    { intros s it' Hin'. apply in_map_iff in Hin'. destruct Hin' as (x & <- & Hx).
      exists x. destruct (String.eqb (Item.id x) id) eqn:E.
      - apply String.eqb_eq in E. cbn. auto 6.
      - auto 6. }
    assert (Hsheet : forall s sel', selectedItem st' = Some sel' ->
               Item.status sel' = UNCLAIMED ->
               forall it', In it' (map (fun it => if String.eqb (Item.id it) id
                                                  then Item.with_status s it else it)
                                       (items st)) ->
               Item.id it' = Item.id sel' -> Item.claims it' = []).
    { intros s sel' Hsel' Hst it' Hin' Hid. rewrite Hs in Hsel'.
      destruct (Hfrom s it' Hin') as (x & Hx & Ei & Ec & _).
      rewrite Ec. apply (Hsh sel' Hsel' Hst x Hx). congruence. }
    rewrite itemIds_adminItems. destruct action; cbn [adminItems].
    + (* APPROVE *)
      destruct (Hap eq_refl) as (p & Hp & Hpend & Hpid).
      split; [exact Hnd|]. split; [|apply Hsheet].
      intros it' Hin'. destruct (Hfrom UNCLAIMED it' Hin') as (x & Hx & _ & _ & [->|[Eid ->]]).
      * apply Hco; exact Hx.
      * assert (x = p) by (apply (NoDup_ids_inj (items st)); congruence || assumption).
        subst x. apply claimedOnce_no_claims.
        apply claimedOnce_open; [apply Hco; exact Hp | left; exact Hpend].
    + (* DELETE *)
      split; [apply NoDup_filter; exact Hnd|]. split.
      * intros it Hin. apply filter_In in Hin. apply Hco. tauto.
      * rewrite Hs. intros sel' Hsel' Hst it Hin Hid. apply filter_In in Hin.
        apply (Hsh sel' Hsel' Hst it); tauto.
    + (* MARK_RETURNED *)
      split; [exact Hnd|]. split; [|apply Hsheet].
      intros it' Hin'. destruct (Hfrom RETURNED it' Hin') as (x & Hx & _ & _ & [->|[_ ->]]).
      * apply Hco; exact Hx.
      * apply claimedOnce_returned. apply Hco; exact Hx.
Qed.

Lemma lifecycle_initialState now : lifecycle (initialState now).
Proof. clear trim.
  split; [|split].
  - cbn. repeat constructor; cbn; intuition discriminate.
  - intros it Hin. cbn in Hin. destruct Hin as [<-|[<-|[<-|[]]]]; exact I.
  - intros sel Hsel. discriminate.
Qed.

Lemma reachable_lifecycle now st : reachable now st -> lifecycle st.
Proof.
  induction 1 as [|st ev st' _ IH Hf Hd].
  - apply lifecycle_initialState.
  - apply (lifecycle_step Hf (dispatch_listChange _ _ Hd) IH).
Qed.

(** X10.  In every state of a run the ids of the items of the list are
    pairwise distinct (the ids [handlePost] draws being new). *)
Theorem item_ids_distinct (now : string) (st : AppState) :
  reachable now st -> NoDup (itemIds (items st)).
Proof. intro Hr. apply (reachable_lifecycle Hr). Qed.

(** X11.  In every state of a run an item that holds a claim is
    CLAIM_REQUESTED or RETURNED: a report that is pending or unclaimed has
    no claim. *)
Theorem claimed_items_status (now : string) (st : AppState) (it : Item.t) :
  reachable now st -> In it (items st) -> Item.claims it <> [] ->
  Item.status it = CLAIM_REQUESTED \/ Item.status it = RETURNED.
Proof. clear trim.
  intros Hr Hin Hne. destruct (reachable_lifecycle Hr) as (_ & Hco & _).
  specialize (Hco it Hin). unfold claimedOnce in Hco.
  destruct (Item.claims it) as [|c [|c' cs]]; [congruence | tauto | contradiction].
Qed.

(** X12.  In every state of a run an item holds at most one claim. *)
Theorem at_most_one_claim (now : string) (st : AppState) (it : Item.t) :
  reachable now st -> In it (items st) -> List.length (Item.claims it) <= 1.
Proof.
  intros Hr Hin. destruct (reachable_lifecycle Hr) as (_ & Hco & _).
  specialize (Hco it Hin). unfold claimedOnce in Hco.
  destruct (Item.claims it) as [|c [|c' cs]]; cbn; [lia | lia | contradiction].
Qed.

(** X13.  No event of the page decides on a claim: in every state of a
    run every claim is still PENDING. *)
Theorem claims_stay_pending
    (now : string) (st : AppState) (it : Item.t) (c : ClaimRequest.t) :
  reachable now st -> In it (items st) -> In c (Item.claims it) ->
  ClaimRequest.status c = PENDING.
Proof. clear trim.
  intros Hr Hin Hc. destruct (reachable_lifecycle Hr) as (_ & Hco & _).
  specialize (Hco it Hin). unfold claimedOnce in Hco.
  destruct (Item.claims it) as [|c0 [|c' cs]]; [destruct Hc | | contradiction].
  destruct Hc as [<-|[]]. tauto.
Qed.

(** The label of a card of "Active Claims" is therefore PENDING. *)
Lemma active_claim_label_pending now st u it :
  reachable now st -> currentUser st = Some u ->
  In it (myClaims (items st) (Some u)) -> myClaimStatus u it = Some PENDING.
Proof. clear trim.
  intros Hr _ Hin. unfold myClaims in Hin. apply filter_In in Hin.
  destruct Hin as [Hin Hex]. apply find_existsb in Hex. destruct Hex as [c Hc].
  unfold myClaimStatus. rewrite Hc. cbn [option_map]. f_equal.
  apply find_some in Hc. destruct Hc as [Hc _].
  destruct (reachable_lifecycle Hr) as (_ & Hco & _).
  specialize (Hco it Hin). unfold claimedOnce in Hco.
  destruct (Item.claims it) as [|c0 [|c' cs]]; [destruct Hc | | contradiction].
  destruct Hc as [<-|[]]. tauto.
Qed.

(** C2.  On the page an approval goes to a report whose status is
    PENDING_APPROVAL and to nothing else: in every state of a run, the
    Approve button that is offered belongs to a pending report, the
    approval sets that report to UNCLAIMED and leaves every other item as
    it is, in particular every item whose status is not PENDING_APPROVAL.
    Applied a second time to the same report, [handleAdminAction] changes
    nothing in the list, and the page offers no such second approval: the
    Approve buttons left belong to other, pending reports. *)
Theorem approve_only_from_pending
    (now : string) (st : AppState) (n : nat) (nid : string) (st' : AppState) :
  reachable now st ->
  dispatch st (ClickApprove n nid) = Some st' ->
  exists p,
    nth_error (pendingReports (items st)) n = Some p /\
    In p (items st) /\ Item.status p = PENDING_APPROVAL /\
    st' = handleAdminAction (Item.id p) APPROVE nid st /\
    In (Item.with_status UNCLAIMED p) (items st') /\
    Forall2 (fun old new =>
               (Item.status old = PENDING_APPROVAL /\ old = p /\
                new = Item.with_status UNCLAIMED old) \/
               new = old)
            (items st) (items st') /\
    (forall nid2, items (handleAdminAction (Item.id p) APPROVE nid2 st') = items st') /\
    (forall n2 nid2 st2,
       dispatch st' (ClickApprove n2 nid2) = Some st2 ->
       exists q, In q (items st') /\ Item.status q = PENDING_APPROVAL /\
                 Item.id q <> Item.id p /\
                 st2 = handleAdminAction (Item.id q) APPROVE nid2 st').
Proof. clear trim.
  intros Hr Hd.
  assert (Hoffer : forall s k m s',
             dispatch s (ClickApprove k m) = Some s' ->
             exists p, nth_error (pendingReports (items s)) k = Some p /\
                       In p (items s) /\ Item.status p = PENDING_APPROVAL /\
                       s' = handleAdminAction (Item.id p) APPROVE m s).
  { intros s k m s' H. unfold dispatch in H.
    destruct (currentUser s); [|discriminate].
    destruct (Tab_eqb (activeTab s) ADMIN_TAB); [|discriminate].
    destruct (nth_error (pendingReports (items s)) k) as [p|] eqn:En; [|discriminate].
    injection H as <-. exists p. split; [reflexivity|].
    apply nth_error_In, pendingReports_In in En. tauto. }
  destruct (Hoffer st n nid st' Hd) as (p & Hn & Hin & Hp & ->).
  destruct (reachable_lifecycle Hr) as (Hnd & _ & _).
  exists p. split; [exact Hn|]. split; [exact Hin|]. split; [exact Hp|].
  split; [reflexivity|]. rewrite items_approve. split; [|split; [|split]].
  - apply in_map_iff. exists p. rewrite String.eqb_refl. auto.
  - apply Forall2_map_self. intros x Hx.
    destruct (String.eqb (Item.id x) (Item.id p)) eqn:E; [|right; reflexivity].
    apply String.eqb_eq in E.
    assert (x = p) by (apply (NoDup_ids_inj (items st)); assumption).
    subst x. left. auto.
  - intro nid2. apply updateStatus_twice.
  - intros n2 nid2 st2 Hd2.
    destruct (Hoffer _ n2 nid2 st2 Hd2) as (q & _ & Hq & Hqp & ->).
    exists q. split; [exact Hq|]. split; [exact Hqp|]. split; [|reflexivity].
    rewrite items_approve in Hq. apply in_map_iff in Hq. destruct Hq as (x & Ex & _).
    destruct (String.eqb (Item.id x) (Item.id p)) eqn:E.
    + subst q. cbn in Hqp. discriminate.
    + subst q. apply String.eqb_neq. exact E.
Qed.

(** ** What an event never does *)

Lemma sameReport_refl it : sameReport it it.
Proof.
  unfold sameReport. repeat split. exists []. rewrite app_nil_r. reflexivity.
Qed.

Lemma sameReport_status s it : sameReport it (Item.with_status s it).
Proof.
  unfold sameReport. cbn. repeat split. exists []. rewrite app_nil_r. reflexivity.
Qed.

(** X14.  No event edits a report or drops a claim: every item of the list
    after an event is the report just posted, or a report of the list
    before with the same id, owner, texts and dates, whose claims are those
    it had, followed by the claims added. *)
Theorem reports_are_never_edited
    (st : AppState) (ev : Event) (st' : AppState) (it' : Item.t) :
  dispatch st ev = Some st' -> In it' (items st') ->
  (exists it, In it (items st) /\ sameReport it it') \/
  (exists u rid now nid,
     ev = SubmitPost rid now nid /\ currentUser st = Some u /\
     it' = postedItem (newItem st) rid now u).
Proof. clear trim.
  intros Hd Hin'. apply dispatch_listChange in Hd.
  destruct Hd as [Hi _ | u rid now nid Hev Hu Hi _ | sel u rid nid _ _ _ _ Hi _
                 | id action _ Hi _]; rewrite Hi in Hin'.
  - left. exists it'. split; [exact Hin' | apply sameReport_refl].
  - destruct Hin' as [<-|Hin'].
    + right. exists u, rid, now, nid. auto.
    + left. exists it'. split; [exact Hin' | apply sameReport_refl].
  - left. apply in_map_iff in Hin'. destruct Hin' as (x & <- & Hx). exists x.
    split; [exact Hx|].
    destruct (String.eqb (Item.id x) (Item.id sel)); [|apply sameReport_refl].
    unfold sameReport. cbn. repeat split.
    exists [newClaim rid u (claimForm st)]. reflexivity.
  - left. destruct action; cbn [adminItems] in Hin'.
    + apply in_map_iff in Hin'. destruct Hin' as (x & <- & Hx). exists x.
      split; [exact Hx|].
      destruct (String.eqb (Item.id x) id);
        [apply sameReport_status | apply sameReport_refl].
    + apply filter_In in Hin'. exists it'. split; [tauto | apply sameReport_refl].
    + apply in_map_iff in Hin'. destruct Hin' as (x & <- & Hx). exists x.
      split; [exact Hx|].
      destruct (String.eqb (Item.id x) id);
        [apply sameReport_status | apply sameReport_refl].
Qed.

(** X15.  No event sends a report back to the moderator's inbox: an item
    that is PENDING_APPROVAL after an event was in the list before, as it
    is, or is the report just posted. *)
Theorem never_back_to_pending
    (st : AppState) (ev : Event) (st' : AppState) (it' : Item.t) :
  dispatch st ev = Some st' -> In it' (pendingReports (items st')) ->
  In it' (pendingReports (items st)) \/
  (exists u rid now nid,
     ev = SubmitPost rid now nid /\ currentUser st = Some u /\
     it' = postedItem (newItem st) rid now u).
Proof. clear trim.
  intros Hd Hin'. apply pendingReports_In in Hin'. destruct Hin' as [Hin' Hp].
  assert (Hmap : forall id (f : Item.t -> Item.t),
             (forall x, Item.status (f x) <> PENDING_APPROVAL) ->
             In it' (map (fun it => if String.eqb (Item.id it) id then f it else it)
                         (items st)) ->
             In it' (items st)).
  { intros id f Hf H. apply in_map_iff in H. destruct H as (x & E & Hx).
    destruct (String.eqb (Item.id x) id); [|congruence].
    exfalso. apply (Hf x). congruence. }
  apply dispatch_listChange in Hd.
  destruct Hd as [Hi _ | u rid now nid Hev Hu Hi _ | sel u rid nid _ _ _ _ Hi _
                 | id action _ Hi _]; rewrite Hi in Hin'.
  - left. apply pendingReports_In. auto.
  - destruct Hin' as [<-|Hin'].
    + right. exists u, rid, now, nid. auto.
    + left. apply pendingReports_In. auto.
  - left. apply pendingReports_In. split; [|exact Hp].
    apply Hmap in Hin'; [exact Hin' | discriminate].
  - left. apply pendingReports_In. split; [|exact Hp].
    destruct action; cbn [adminItems] in Hin'.
    + apply Hmap in Hin'; [exact Hin' | discriminate].
    + apply filter_In in Hin'. tauto.
    + apply Hmap in Hin'; [exact Hin' | discriminate].
Qed.

(** ** Who can do what *)

(** X16.  Without a logged-in user no event changes the item list. *)
Theorem logged_out_cannot_write (st : AppState) (ev : Event) (st' : AppState) :
  currentUser st = None -> dispatch st ev = Some st' -> items st' = items st.
Proof.
  intros Hu Hd. unfold dispatch in Hd. rewrite Hu in Hd.
  destruct ev; try discriminate Hd; injection Hd as <-; try reflexivity;
    unfold login; destruct (nonEmpty (loginEmail st)); reflexivity.
Qed.

(** X17.  A STUDENT who is not on the moderator tab cannot get there, and
    changes the item list only by posting a report or by submitting the
    claim form. *)
Theorem student_cannot_moderate
    (st : AppState) (u : User.t) (ev : Event) (st' : AppState) :
  currentUser st = Some u -> User.role u = STUDENT -> activeTab st <> ADMIN_TAB ->
  dispatch st ev = Some st' ->
  activeTab st' <> ADMIN_TAB /\
  (currentUser st' = Some u \/ currentUser st' = None) /\
  (items st' = items st \/
   (exists rid now nid, ev = SubmitPost rid now nid) \/
   (exists rid nid, ev = SubmitClaim rid nid)).
Proof.
  intros Hu Hrole Htab Hd.
  assert (Ht : Tab_eqb (activeTab st) ADMIN_TAB = false).
  { destruct (activeTab st); try reflexivity. contradiction. }
  assert (Hr : Role_eqb (User.role u) ADMIN = false) by (rewrite Hrole; reflexivity).
  unfold dispatch in Hd. rewrite Hu in Hd.
  destruct ev; try discriminate Hd; rewrite ?Ht, ?Hr in Hd; try discriminate Hd.
  all: try (injection Hd as <-; cbn; auto; fail).
  all: try (unfold openNth in Hd; split_offer Hd; injection Hd as <-; cbn; auto; fail).
  - (* GoToTab *)
    destruct t; cbn in Hd; try discriminate Hd; injection Hd as <-; cbn;
      (split; [discriminate | split; [left; exact Hu | left; reflexivity]]).
  - (* SubmitPost *)
    split_offer Hd. injection Hd as <-. unfold handlePost. rewrite Hu. cbn.
    split; [discriminate|]. split; [auto|]. right. left. eauto.
  - (* SubmitClaim *)
    split_offer Hd. injection Hd as <-. unfold handleClaimSubmit.
    match goal with H : selectedItem st = Some _ |- _ => rewrite H end.
    rewrite Hu. cbn. split; [exact Htab|]. split; [auto|]. right. right. eauto.
  - (* Reload *)
    injection Hd as <-. cbn. split; [discriminate | auto].
Qed.

(** X18.  Logging in does not look at the tab the page was left on: when
    the last user left it on the moderator tab, whoever enters as a
    STUDENT is a STUDENT on that tab, and the Approve and Reject buttons
    of every pending report work for them. *)
Theorem student_inherits_moderator_tab
    (st : AppState) (stamp : string) (n : nat) (p : Item.t) (nid : string) :
  currentUser st = None -> activeTab st = ADMIN_TAB ->
  nonEmpty (loginEmail st) = true ->
  nth_error (pendingReports (items st)) n = Some p ->
  exists st1 u,
    dispatch st (EnterCampus stamp) = Some st1 /\
    currentUser st1 = Some u /\ User.role u = STUDENT /\
    dispatch st1 (ClickApprove n nid)
    = Some (handleAdminAction (Item.id p) APPROVE nid st1) /\
    dispatch st1 (ClickReject n nid)
    = Some (handleAdminAction (Item.id p) DELETE nid st1).
Proof.
  intros Hu Htab He Hp.
  exists (login "u-" stamp STUDENT st), (User.mk ("u-" ++ stamp) (loginEmail st) STUDENT).
  unfold dispatch. rewrite Hu. unfold login. rewrite He.
  cbn [currentUser setCurrentUser activeTab items]. rewrite Htab.
  cbn [Tab_eqb]. rewrite Hp. repeat split.
Qed.

(** ** The open sheet is a snapshot *)

Lemma dispatch_SubmitClaim_offered st sel u rid nid :
  selectedItem st = Some sel -> currentUser st = Some u ->
  claimFormVisible sel u = true ->
  nonEmpty (f_message (claimForm st)) = true ->
  nonEmpty (f_contact (claimForm st)) = true ->
  dispatch st (SubmitClaim rid nid) = Some (handleClaimSubmit rid nid st).
Proof.
  intros Hs Hu Hv Hm Hc. unfold dispatch. rewrite Hu, Hs, Hv, Hm, Hc. reflexivity.
Qed.

(** X19.  The sheet keeps the item as it was when it was opened.  After a
    moderator marks the item of the sheet as resolved, the sheet still
    offers the claim form it offered before, and submitting it takes the
    items with that id from RETURNED to CLAIM_REQUESTED. *)
Theorem resolved_item_can_still_be_claimed
    (st : AppState) (sel : Item.t) (u : User.t) (nid rid nid2 : string) :
  selectedItem st = Some sel -> currentUser st = Some u -> User.role u = ADMIN ->
  claimFormVisible sel u = true ->
  nonEmpty (f_message (claimForm st)) = true ->
  nonEmpty (f_contact (claimForm st)) = true ->
  exists st1 st2,
    dispatch st (ClickMarkReturned nid) = Some st1 /\
    selectedItem st1 = Some sel /\
    (forall it, In it (items st1) -> Item.id it = Item.id sel ->
                Item.status it = RETURNED) /\
    dispatch st1 (SubmitClaim rid nid2) = Some st2 /\
    (forall it, In it (items st2) -> Item.id it = Item.id sel ->
                Item.status it = CLAIM_REQUESTED).
Proof.
  intros Hs Hu Hr Hv Hm Hc.
  set (st1 := handleAdminAction (Item.id sel) MARK_RETURNED nid st).
  exists st1, (handleClaimSubmit rid nid2 st1).
  assert (Hs1 : selectedItem st1 = Some sel) by exact Hs.
  assert (Hu1 : currentUser st1 = Some u) by exact Hu.
  split; [|split; [exact Hs1|split; [|split]]].
  - unfold dispatch. rewrite Hu, Hs, Hr. reflexivity.
  - intros it Hin Hid. unfold st1 in Hin. rewrite items_mark_returned in Hin.
    apply in_map_iff in Hin. destruct Hin as (x & <- & _).
    destruct (String.eqb (Item.id x) (Item.id sel)) eqn:E; [reflexivity|].
    apply String.eqb_neq in E. contradiction.
  - apply (dispatch_SubmitClaim_offered st1 rid nid2 Hs1 Hu1 Hv Hm Hc).
  - intros it Hin Hid. rewrite (items_handleClaimSubmit rid nid2 st1 Hs1 Hu1) in Hin.
    apply in_map_iff in Hin. destruct Hin as (x & <- & _).
    destruct (String.eqb (Item.id x) (Item.id sel)) eqn:E; [reflexivity|].
    apply String.eqb_neq in E. contradiction.
Qed.

(** X20.  After a moderator deletes the item of the sheet, the sheet
    still offers its claim form; the claim submitted then reaches no item
    (the list stays without the id) and the notice is the success one all
    the same. *)
Theorem claim_on_deleted_item_is_lost
    (st : AppState) (sel : Item.t) (u : User.t) (nid rid nid2 : string) :
  selectedItem st = Some sel -> currentUser st = Some u -> User.role u = ADMIN ->
  claimFormVisible sel u = true ->
  nonEmpty (f_message (claimForm st)) = true ->
  nonEmpty (f_contact (claimForm st)) = true ->
  exists st1 st2,
    dispatch st (ClickDelete nid) = Some st1 /\
    dispatch st1 (SubmitClaim rid nid2) = Some st2 /\
    items st2 = items st1 /\
    findItem (Item.id sel) (items st2) = None /\
    notifications st2
    = mkNotification nid2 "Claim submitted! The owner/admin will review it." SUCCESS
        :: notifications st1.
Proof. clear trim.
  intros Hs Hu Hr Hv Hm Hc.
  set (st1 := handleAdminAction (Item.id sel) DELETE nid st).
  exists st1, (handleClaimSubmit rid nid2 st1).
  assert (Hs1 : selectedItem st1 = Some sel) by exact Hs.
  assert (Hu1 : currentUser st1 = Some u) by exact Hu.
  assert (Hgone : forall it, In it (items st1) -> Item.id it <> Item.id sel).
  { intros it Hin. unfold st1 in Hin. rewrite items_delete in Hin.
    apply filter_In in Hin. apply negb_eqb_neq. tauto. }
  assert (Hi : items (handleClaimSubmit rid nid2 st1) = items st1).
  { rewrite (items_handleClaimSubmit rid nid2 st1 Hs1 Hu1).
    apply map_unmatched. exact Hgone. }
  split; [|split; [|split; [exact Hi|split]]].
  - unfold dispatch. rewrite Hu, Hs, Hr. reflexivity.
  - apply (dispatch_SubmitClaim_offered st1 rid nid2 Hs1 Hu1 Hv Hm Hc).
  - rewrite Hi. apply findItem_None. exact Hgone.
  - unfold handleClaimSubmit. rewrite Hs1, Hu1. reflexivity.
Qed.

(** ** Notifications *)

(** X21.  A notification whose id is not in use goes away when its timer
    fires and leaves the page as it was before it was posted. *)
Theorem notification_expires
    (st : AppState) (nid text : string) (type : NotificationType) :
  (forall n, In n (notifications st) -> n_id n <> nid) ->
  dispatch (addNotification nid text type st) (ExpireNotification nid) = Some st.
Proof.
  intro Hfree. unfold dispatch, addNotification. f_equal.
  destruct st as [its cu tab sel q ns cat d f e]. unfold setNotifications.
  cbn [items currentUser activeTab selectedItem searchQuery notifications
       activeCategory newItem claimForm loginEmail filter n_id] in *.
  rewrite String.eqb_refl. cbn [negb]. f_equal.
  apply filter_all. intros n Hn. apply negb_eqb_neq. apply Hfree. exact Hn.
Qed.

(** ** The "Improve" button *)

(** X22.  [handleAiEnhance] never posts its failure notice: the catch
    branch cannot be reached, as [enhanceDescription] does not reject.
    When the call fails the draft gets the description that was sent, and
    the notice is the success one.  The handler touches nothing but the
    description of the draft and the notifications, and does nothing when
    the description is empty. *)
Theorem handleAiEnhance_reports_success
    (ai : string -> GenerateContent) (nid : string) (clicked st : AppState) :
  let text := d_description (newItem clicked) in
  let st' := handleAiEnhance ai nid clicked st in
  (forall n, In n (notifications st') -> n_type n = ERROR -> In n (notifications st)) /\
  (nonEmpty text = false -> st' = st) /\
  (nonEmpty text = true ->
   exists enhanced,
     enhanceDescription ai text = Fulfilled enhanced /\
     st' = addNotification nid "Description polished by AI!" SUCCESS
             (setNewItem (withDescription enhanced (newItem st)) st)) /\
  (nonEmpty text = true -> callFailed (ai (enhancePrompt text)) ->
   d_description (newItem st') = text) /\
  items st' = items st /\ currentUser st' = currentUser st /\
  selectedItem st' = selectedItem st /\ claimForm st' = claimForm st.
Proof.
  intros text st'. subst text st'. unfold handleAiEnhance.
  set (text := d_description (newItem clicked)).
  destruct (nonEmpty text) eqn:Hne.
  - destruct (enhanceDescription_never_rejects ai text) as [v Hv].
    assert (Hfail : callFailed (ai (enhancePrompt text)) -> v = text).
    { intro Hf. unfold enhanceDescription, callFailed in *.
      destruct (ai (enhancePrompt text)) as [e|[s|]].
      - congruence.
      - rewrite (@textOr_failed s text Hf) in Hv. congruence.
      - cbn in Hv. congruence. }
    rewrite Hv.
    split; [|split; [discriminate|split; [|split]]].
    + intros n [<-|Hin] Ht; [discriminate Ht | exact Hin].
    + intros _. exists v. split; reflexivity.
    + intros _ Hf. cbn. apply Hfail. exact Hf.
    + repeat split.
  - split; [|split; [reflexivity|split; [discriminate|split; [discriminate|]]]].
    + intros n Hin _. exact Hin.
    + repeat split.
Qed.

(** ** What Text Assist hands back *)

Lemma nonEmpty_true s : nonEmpty s = true <-> s <> "".
Proof. destruct s; cbn; split; congruence. Qed.

(** X23.  [enhanceDescription] never empties a description: for a
    non-empty text the promise is fulfilled with a non-empty text, which
    is the input or the trimmed reply of the service. *)
Theorem enhanceDescription_keeps_text
    (ai : string -> GenerateContent) (text : string) :
  nonEmpty text = true ->
  exists v,
    enhanceDescription ai text = Fulfilled v /\ nonEmpty v = true /\
    (v = text \/
     exists s, ai (enhancePrompt text) = Response (Some s) /\ v = trim s).
Proof.
  intro Hne. unfold enhanceDescription.
  destruct (ai (enhancePrompt text)) as [e|[s|]].
  - exists text. auto.
  - unfold textOr. destruct (nonEmpty (trim s)) eqn:E.
    + exists (trim s). split; [reflexivity|]. split; [exact E|].
      right. exists s. split; reflexivity.
    + exists text. auto.
  - exists text. cbn. auto.
Qed.

End Page.

(** * The examples, run with the ASCII string functions *)

Lemma filteredItems_pending_owner_or_admin_witness :
  exists u, Some moderator = Some u /\
            (User.id u = Item.userId dormKeys \/ User.role u = ADMIN).
Proof.
  apply (@filteredItems_pending_owner_or_admin asciiToLowerCase
           (INITIAL_ITEMS "2024-05-20T10:00:00.000Z") "KEYS" (Some KEYS)
           (Some moderator) dormKeys).
  - vm_compute. left. reflexivity.
  - reflexivity.
Defined.

Lemma handlePost_creates_pending_item_witness :
  exists item,
    items (handlePost "k3x9q2m1a" "2024-05-15T09:30:00.000Z" "n1" studentADraft)
    = item :: items studentADraft /\
    Item.status item = PENDING_APPROVAL /\
    Item.userId item = User.id studentA /\
    Item.claims item = [] /\
    Item.id item = "k3x9q2m1a" /\ Item.createdAt item = "2024-05-15T09:30:00.000Z" /\
    Item.title item = d_title (newItem studentADraft) /\
    Item.type item = d_type (newItem studentADraft) /\
    Item.category item = d_category (newItem studentADraft) /\
    Item.location item = d_location (newItem studentADraft) /\
    Item.date item = d_date (newItem studentADraft) /\
    Item.description item = d_description (newItem studentADraft).
Proof.
  apply (@handlePost_creates_pending_item studentADraft studentA). reflexivity.
Defined.

Lemma enhanceDescription_failure_is_identity_witness :
  enhanceDescription asciiTrim timedOut "broken headphones" = Fulfilled "broken headphones".
Proof.
  apply (enhanceDescription_failure_is_identity asciiTrim timedOut "broken headphones").
  exact I.
Defined.

Example enhanceDescription_blank_reply :
  enhanceDescription asciiTrim (fun _ => Response (Some "   ")) "broken headphones"
  = Fulfilled "broken headphones".
Proof. reflexivity. Qed.

Example enhanceDescription_reply :
  enhanceDescription asciiTrim (fun _ => Response (Some " Black over-ear headphones, left hinge cracked.  "))
                     "broken headphones"
  = Fulfilled "Black over-ear headphones, left hinge cracked.".
Proof. reflexivity. Qed.

(** C3.  The code on a sheet that is older than the list.  A moderator
    opens the MacBook from the feed, UNCLAIMED, and marks it as resolved:
    the list holds it as RETURNED, the sheet still holds it as UNCLAIMED
    and still shows the claim form.  The claim submitted then goes
    through, and takes the item from RETURNED to CLAIM_REQUESTED with the
    claim filed. *)
Example stale_sheet_claims_returned_item :
  exists st st' it it',
    run asciiToLowerCase (initialState loadTime) staleSheetRun = Some st /\
    findItem "1" (items st) = Some it /\ Item.status it = RETURNED /\
    dispatch asciiToLowerCase st (SubmitClaim "c1" "n2") = Some st' /\
    findItem "1" (items st') = Some it' /\ Item.status it' = CLAIM_REQUESTED /\
    List.length (Item.claims it') = 1.
Proof. do 4 eexists. vm_compute. repeat split; reflexivity. Qed.

Example claimRun_ends_in : run asciiToLowerCase (initialState loadTime) claimRun = Some studentBClaiming.
Proof. reflexivity. Qed.

Lemma owner_never_claims_own_item_witness :
  (forall rid nid st' u sel it,
     dispatch asciiToLowerCase studentBClaiming (SubmitClaim rid nid) = Some st' ->
     currentUser studentBClaiming = Some u -> selectedItem studentBClaiming = Some sel ->
     In it (items studentBClaiming) -> Item.id it = Item.id sel ->
     Item.userId it <> User.id u) /\
  (forall it c, In it (items studentBClaiming) -> In c (Item.claims it) ->
                ClaimRequest.userId c <> Item.userId it).
Proof.
  apply (@owner_never_claims_own_item asciiToLowerCase loadTime studentBClaiming).
  apply (@run_reachable asciiToLowerCase loadTime (initialState loadTime) claimRun studentBClaiming).
  - apply reach_init.
  - reflexivity.
  - reflexivity.
Defined.

(** C5.  The code at a message of four characters, under the twenty the
    claim schema asks for: the page accepts the form (its fields are only
    [required]) and [handleClaimSubmit] files the claim. *)
Example short_claim_is_filed :
  exists st' it c,
    run asciiToLowerCase (initialState loadTime) shortClaimRun = Some st' /\
    findItem "1" (items st') = Some it /\
    Item.status it = CLAIM_REQUESTED /\
    Item.claims it = [c] /\
    ClaimRequest.message c = "mine" /\
    String.length (ClaimRequest.message c) < ClaimSchema_message_minlength.
Proof.
  do 3 eexists. vm_compute.
  repeat split; try reflexivity. repeat constructor.
Qed.

Example Other_is_category : isCategoryName "Other" = true.
Proof. reflexivity. Qed.

(** C9.  The code at a reply outside the list: [suggestCategory] hands the
    reply on, and what it returns is no member of the enumeration. *)
Example suggestCategory_off_list :
  suggestCategory asciiTrim offList "Gold ring" "Found near the fountain" = Fulfilled "Jewelry" /\
  isCategoryName "Jewelry" = false.
Proof. split; reflexivity. Qed.

Example scenario_reported :
  outcome asciiToLowerCase reportRun "k3x9q2m1a" = Some (PENDING_APPROVAL, "u-1715765000000", []).
Proof. reflexivity. Qed.

Example scenario_approved :
  outcome asciiToLowerCase (reportRun ++ approveRun) "k3x9q2m1a"
  = Some (UNCLAIMED, "u-1715765000000", []).
Proof. reflexivity. Qed.

Example scenario_claimed_and_returned :
  outcome asciiToLowerCase (reportRun ++ approveRun ++ removelast claimAndReturnRun) "k3x9q2m1a"
  = Some (CLAIM_REQUESTED, "u-1715765000000", [("u-1715766000000", PENDING)]) /\
  outcome asciiToLowerCase (reportRun ++ approveRun ++ claimAndReturnRun) "k3x9q2m1a"
  = Some (RETURNED, "u-1715765000000", [("u-1715766000000", PENDING)]).
Proof. split; reflexivity. Qed.

(** A pending report is not in the feed of another student. *)
Example scenario_pending_hidden :
  filteredItems asciiToLowerCase (INITIAL_ITEMS loadTime) "keys" (Some KEYS) (Some studentB) = [] /\
  filteredItems asciiToLowerCase (INITIAL_ITEMS loadTime) "KEYS" (Some KEYS) (Some moderator) = [dormKeys].
Proof. split; reflexivity. Qed.

Lemma search_narrows_witness :
  In macBook (filteredItems asciiToLowerCase (INITIAL_ITEMS loadTime) "Mac" None
                            (Some studentB)) /\
  In macBook (filteredItems asciiToLowerCase (INITIAL_ITEMS loadTime) "BOOK" None
                            (Some studentB)).
Proof.
  apply (@search_narrows asciiToLowerCase (INITIAL_ITEMS loadTime) "Mac" "BOOK" None
           (Some studentB) macBook).
  - reflexivity.
  - vm_compute. left. reflexivity.
Defined.

Lemma own_reports_in_feed_witness :
  In dormKeys (filteredItems asciiToLowerCase (INITIAL_ITEMS loadTime) "lanyard" (Some KEYS)
                             (Some finder)).
Proof.
  apply (@own_reports_in_feed asciiToLowerCase (INITIAL_ITEMS loadTime) "lanyard" (Some KEYS)
           (Some finder) dormKeys).
  - vm_compute. left. reflexivity.
  - reflexivity.
  - reflexivity.
Defined.

Lemma unfiltered_feed_witness :
  filteredItems asciiToLowerCase (INITIAL_ITEMS loadTime) "" None (Some moderator)
  = filter (isVisible (Some moderator)) (INITIAL_ITEMS loadTime) /\
  (isAdmin (Some moderator) = true ->
   filteredItems asciiToLowerCase (INITIAL_ITEMS loadTime) "" None (Some moderator)
   = INITIAL_ITEMS loadTime) /\
  (isAdmin (Some moderator) = false ->
   myItems (INITIAL_ITEMS loadTime) (Some moderator) = [] ->
   filteredItems asciiToLowerCase (INITIAL_ITEMS loadTime) "" None (Some moderator)
   = filter (fun it => negb (ItemStatus_eqb (Item.status it) PENDING_APPROVAL))
            (INITIAL_ITEMS loadTime)).
Proof.
  apply (@unfiltered_feed asciiToLowerCase).
  reflexivity.
Defined.

Lemma handlePost_lists_witness :
  let st' := handlePost "k3x9q2m1a" "2024-05-15T09:30:00.000Z" "n1" studentADraft in
  let item := postedItem (newItem studentADraft) "k3x9q2m1a"
                         "2024-05-15T09:30:00.000Z" studentA in
  myItems (items st') (Some studentA)
  = item :: myItems (items studentADraft) (Some studentA) /\
  pendingReports (items st') = item :: pendingReports (items studentADraft) /\
  (forall v q cat, User.id v <> User.id studentA -> User.role v <> ADMIN ->
     filteredItems asciiToLowerCase (items st') q cat (Some v)
     = filteredItems asciiToLowerCase (items studentADraft) q cat (Some v)) /\
  (forall q cat,
     filteredItems asciiToLowerCase (items st') q cat None
     = filteredItems asciiToLowerCase (items studentADraft) q cat None) /\
  activeTab st' = MY_TRACE /\
  newItem st' = blankNewItem "2024-05-15T09:30:00.000Z" /\
  selectedItem st' = selectedItem studentADraft.
Proof.
  apply (@handlePost_lists asciiToLowerCase studentADraft studentA "k3x9q2m1a"
           "2024-05-15T09:30:00.000Z" "n1").
  reflexivity.
Defined.

Lemma actions_on_different_ids_commute_witness :
  items (handleAdminAction "3" APPROVE "n1"
           (handleAdminAction "1" DELETE "n2" (initialState loadTime)))
  = items (handleAdminAction "1" DELETE "n2"
             (handleAdminAction "3" APPROVE "n1" (initialState loadTime))).
Proof.
  apply (@actions_on_different_ids_commute (initialState loadTime) "3" "1"
           APPROVE DELETE "n1" "n2").
  discriminate.
Defined.

Lemma ids_after_event_witness :
  itemIds (items (handleClaimSubmit "c1" "n1" studentBClaiming))
  = itemIds (items studentBClaiming) \/
  (exists rid now nid,
     SubmitClaim "c1" "n1" = SubmitPost rid now nid /\
     itemIds (items (handleClaimSubmit "c1" "n1" studentBClaiming))
     = rid :: itemIds (items studentBClaiming)) \/
  (exists id,
     itemIds (items (handleClaimSubmit "c1" "n1" studentBClaiming))
     = filter (fun i => negb (String.eqb i id)) (itemIds (items studentBClaiming))).
Proof.
  apply (@ids_after_event asciiToLowerCase studentBClaiming (SubmitClaim "c1" "n1")
           (handleClaimSubmit "c1" "n1" studentBClaiming)).
  reflexivity.
Defined.

Lemma item_ids_distinct_witness : NoDup (itemIds (items claimedState)).
Proof.
  apply (@item_ids_distinct asciiToLowerCase loadTime claimedState).
  apply (@run_reachable asciiToLowerCase loadTime (initialState loadTime)
           (claimRun ++ [SubmitClaim "c1" "n1"]) claimedState);
    [apply reach_init | reflexivity | reflexivity].
Defined.

Lemma claimed_items_status_witness :
  Item.status (Item.with_status_claims CLAIM_REQUESTED
                 [newClaim "c1" studentB (claimForm studentBClaiming)] macBook)
  = CLAIM_REQUESTED \/
  Item.status (Item.with_status_claims CLAIM_REQUESTED
                 [newClaim "c1" studentB (claimForm studentBClaiming)] macBook)
  = RETURNED.
Proof.
  apply (@claimed_items_status asciiToLowerCase loadTime claimedState).
  - apply (@run_reachable asciiToLowerCase loadTime (initialState loadTime)
             (claimRun ++ [SubmitClaim "c1" "n1"]) claimedState);
      [apply reach_init | reflexivity | reflexivity].
  - left. reflexivity.
  - discriminate.
Defined.

Lemma at_most_one_claim_witness :
  List.length (Item.claims
                 (Item.with_status_claims CLAIM_REQUESTED
                    [newClaim "c1" studentB (claimForm studentBClaiming)] macBook)) <= 1.
Proof.
  apply (@at_most_one_claim asciiToLowerCase loadTime claimedState).
  - apply (@run_reachable asciiToLowerCase loadTime (initialState loadTime)
             (claimRun ++ [SubmitClaim "c1" "n1"]) claimedState);
      [apply reach_init | reflexivity | reflexivity].
  - left. reflexivity.
Defined.

Lemma claims_stay_pending_witness :
  ClaimRequest.status (newClaim "c1" studentB (claimForm studentBClaiming)) = PENDING.
Proof.
  apply (@claims_stay_pending asciiToLowerCase loadTime claimedState
           (Item.with_status_claims CLAIM_REQUESTED
              [newClaim "c1" studentB (claimForm studentBClaiming)] macBook)).
  - apply (@run_reachable asciiToLowerCase loadTime (initialState loadTime)
             (claimRun ++ [SubmitClaim "c1" "n1"]) claimedState);
      [apply reach_init | reflexivity | reflexivity].
  - left. reflexivity.
  - left. reflexivity.
Defined.

Example inboxRun_ends_in :
  run asciiToLowerCase (initialState loadTime) inboxRun = Some moderatorInbox.
Proof. reflexivity. Qed.

Lemma approve_only_from_pending_witness :
  exists p,
    nth_error (pendingReports (items moderatorInbox)) 0 = Some p /\
    In p (items moderatorInbox) /\ Item.status p = PENDING_APPROVAL /\
    handleAdminAction "3" APPROVE "n1" moderatorInbox
    = handleAdminAction (Item.id p) APPROVE "n1" moderatorInbox /\
    In (Item.with_status UNCLAIMED p)
       (items (handleAdminAction "3" APPROVE "n1" moderatorInbox)) /\
    Forall2 (fun old new =>
               (Item.status old = PENDING_APPROVAL /\ old = p /\
                new = Item.with_status UNCLAIMED old) \/
               new = old)
            (items moderatorInbox)
            (items (handleAdminAction "3" APPROVE "n1" moderatorInbox)) /\
    (forall nid2,
       items (handleAdminAction (Item.id p) APPROVE nid2
                (handleAdminAction "3" APPROVE "n1" moderatorInbox))
       = items (handleAdminAction "3" APPROVE "n1" moderatorInbox)) /\
    (forall n2 nid2 st2,
       dispatch asciiToLowerCase (handleAdminAction "3" APPROVE "n1" moderatorInbox)
                (ClickApprove n2 nid2) = Some st2 ->
       exists q, In q (items (handleAdminAction "3" APPROVE "n1" moderatorInbox)) /\
                 Item.status q = PENDING_APPROVAL /\
                 Item.id q <> Item.id p /\
                 st2 = handleAdminAction (Item.id q) APPROVE nid2
                         (handleAdminAction "3" APPROVE "n1" moderatorInbox)).
Proof.
  apply (@approve_only_from_pending asciiToLowerCase loadTime moderatorInbox 0 "n1"
           (handleAdminAction "3" APPROVE "n1" moderatorInbox)).
  - apply (@run_reachable asciiToLowerCase loadTime (initialState loadTime) inboxRun
             moderatorInbox);
      [apply reach_init | reflexivity | reflexivity].
  - reflexivity.
Defined.

Lemma reports_are_never_edited_witness :
  (exists it, In it (items studentBClaiming) /\
              sameReport it (Item.with_status_claims CLAIM_REQUESTED
                               [newClaim "c1" studentB (claimForm studentBClaiming)]
                               macBook)) \/
  (exists u rid now nid,
     SubmitClaim "c1" "n1" = SubmitPost rid now nid /\
     currentUser studentBClaiming = Some u /\
     Item.with_status_claims CLAIM_REQUESTED
       [newClaim "c1" studentB (claimForm studentBClaiming)] macBook
     = postedItem (newItem studentBClaiming) rid now u).
Proof.
  apply (@reports_are_never_edited asciiToLowerCase studentBClaiming (SubmitClaim "c1" "n1") claimedState).
  - reflexivity.
  - left. reflexivity.
Defined.

Lemma never_back_to_pending_witness :
  In dormKeys (pendingReports (items studentBClaiming)) \/
  (exists u rid now nid,
     SubmitClaim "c1" "n1" = SubmitPost rid now nid /\
     currentUser studentBClaiming = Some u /\
     dormKeys = postedItem (newItem studentBClaiming) rid now u).
Proof.
  apply (@never_back_to_pending asciiToLowerCase studentBClaiming (SubmitClaim "c1" "n1") claimedState).
  - reflexivity.
  - left. reflexivity.
Defined.

Lemma logged_out_cannot_write_witness :
  items (login "u-" "1715766000000" STUDENT leftOnModeratorTab)
  = items leftOnModeratorTab.
Proof.
  apply (@logged_out_cannot_write asciiToLowerCase leftOnModeratorTab (EnterCampus "1715766000000")
           (login "u-" "1715766000000" STUDENT leftOnModeratorTab));
    reflexivity.
Defined.

Lemma student_cannot_moderate_witness :
  activeTab claimedState <> ADMIN_TAB /\
  (currentUser claimedState = Some studentB \/ currentUser claimedState = None) /\
  (items claimedState = items studentBClaiming \/
   (exists rid now nid, SubmitClaim "c1" "n1" = SubmitPost rid now nid) \/
   (exists rid nid, SubmitClaim "c1" "n1" = SubmitClaim rid nid)).
Proof.
  apply (@student_cannot_moderate asciiToLowerCase studentBClaiming studentB (SubmitClaim "c1" "n1")
           claimedState).
  - reflexivity.
  - reflexivity.
  - discriminate.
  - reflexivity.
Defined.

Lemma student_inherits_moderator_tab_witness :
  exists st1 u,
    dispatch asciiToLowerCase leftOnModeratorTab (EnterCampus "1715766000000") = Some st1 /\
    currentUser st1 = Some u /\ User.role u = STUDENT /\
    dispatch asciiToLowerCase st1 (ClickApprove 0 "n1")
    = Some (handleAdminAction (Item.id dormKeys) APPROVE "n1" st1) /\
    dispatch asciiToLowerCase st1 (ClickReject 0 "n1")
    = Some (handleAdminAction (Item.id dormKeys) DELETE "n1" st1).
Proof.
  apply (@student_inherits_moderator_tab asciiToLowerCase leftOnModeratorTab "1715766000000" 0
           dormKeys "n1"); reflexivity.
Defined.

Lemma resolved_item_can_still_be_claimed_witness :
  exists st1 st2,
    dispatch asciiToLowerCase moderatorOnSheet (ClickMarkReturned "n1") = Some st1 /\
    selectedItem st1 = Some macBook /\
    (forall it, In it (items st1) -> Item.id it = Item.id macBook ->
                Item.status it = RETURNED) /\
    dispatch asciiToLowerCase st1 (SubmitClaim "c1" "n2") = Some st2 /\
    (forall it, In it (items st2) -> Item.id it = Item.id macBook ->
                Item.status it = CLAIM_REQUESTED).
Proof.
  apply (@resolved_item_can_still_be_claimed asciiToLowerCase moderatorOnSheet macBook moderator
           "n1" "c1" "n2"); reflexivity.
Defined.

Lemma claim_on_deleted_item_is_lost_witness :
  exists st1 st2,
    dispatch asciiToLowerCase moderatorOnSheet (ClickDelete "n1") = Some st1 /\
    dispatch asciiToLowerCase st1 (SubmitClaim "c1" "n2") = Some st2 /\
    items st2 = items st1 /\
    findItem (Item.id macBook) (items st2) = None /\
    notifications st2
    = mkNotification "n2" "Claim submitted! The owner/admin will review it." SUCCESS
        :: notifications st1.
Proof.
  apply (@claim_on_deleted_item_is_lost asciiToLowerCase moderatorOnSheet macBook moderator
           "n1" "c1" "n2"); reflexivity.
Defined.

Lemma notification_expires_witness :
  dispatch asciiToLowerCase (addNotification "n1" "Report deleted." INFO studentBClaiming)
           (ExpireNotification "n1")
  = Some studentBClaiming.
Proof.
  apply (@notification_expires asciiToLowerCase studentBClaiming "n1" "Report deleted." INFO).
  intros n Hn. destruct Hn.
Defined.

Example handleAiEnhance_service_down :
  handleAiEnhance asciiTrim timedOut "n1" describing describing
  = addNotification "n1" "Description polished by AI!" SUCCESS describing.
Proof. reflexivity. Qed.

Lemma enhanceDescription_keeps_text_witness :
  exists v,
    enhanceDescription asciiTrim timedOut "broken headphones" = Fulfilled v /\
    nonEmpty v = true /\
    (v = "broken headphones" \/
     exists s, timedOut (enhancePrompt "broken headphones") = Response (Some s) /\
               v = asciiTrim s).
Proof.
  apply (@enhanceDescription_keeps_text asciiTrim timedOut "broken headphones").
  reflexivity.
Defined.
